(** * Provisioning a mock REST API on an API gateway

    A shallow embedding of [aws_config/aws_config.py] and
    [api_gateway/aws_gateway.py].

    - The process environment read by [os.getenv] is a finite map from
      variable names to values; configuration dictionaries are finite maps
      as well.
    - The boto3 client is an arbitrary transition function on an abstract
      world: every remote call takes the world and a request and gives back
      a reply (a response dictionary or a raised exception) and the next
      world.
    - The script is written in a monad that threads the world, collects the
      events of the run in order (remote calls with their replies, printed
      lines, sleeps) and propagates Python exceptions.
    - Python [str] is [string], one [ascii] per code point below 256. *)

From Stdlib Require Import Ascii String.
From stdpp Require Import base strings list gmap pretty.

Local Open Scope string_scope.
Local Open Scope list_scope.
Local Open Scope Z_scope.

(** ** Python values used by the two modules *)

(** The exception classes that occur.  [OtherError] stands for every class
    that the modules neither raise themselves nor catch (for instance
    botocore's [EndpointConnectionError] or [ParamValidationError], which do
    not derive from [ClientError]). *)
Inductive Exn : Type :=
| ClientError (msg : string)
| KeyError (key : string)
| StopIteration
| SystemExit (code : Z)
| RuntimeError (msg : string)
| OtherError (cls msg : string).

Inductive Outcome (A : Type) : Type :=
| Return (a : A)
| Raise (e : Exn).
Arguments Return {A} a.
Arguments Raise {A} e.

(** [str(v)] for a value that is a string or [None]. *)
Definition py_str (v : option string) : string :=
  match v with
  | Some s => s
  | None => "None"
  end.

(** Truth value of a value that is a string or [None]: [None] and the empty
    string are false. *)
Definition truthy (v : option string) : bool :=
  match v with
  | Some (String _ _) => true
  | Some EmptyString | None => false
  end.

(** ** [json.dumps] on flat dictionaries of integers and strings *)

Definition dquote : ascii := "034"%char.
Definition backslash : ascii := "092"%char.
Definition newline : string := String "010"%char EmptyString.

Definition hex_digit (n : N) : ascii :=
  match n with
  | 0 => "0" | 1 => "1" | 2 => "2" | 3 => "3" | 4 => "4" | 5 => "5"
  | 6 => "6" | 7 => "7" | 8 => "8" | 9 => "9" | 10 => "a" | 11 => "b"
  | 12 => "c" | 13 => "d" | 14 => "e" | _ => "f"
  end%N%char.

(** One character of [json.encoder.py_encode_basestring_ascii]: the short
    escapes of [ESCAPE_DCT], printable ASCII unchanged, everything else as
    a four-digit lowercase [\u] escape.  A [string] holds code points below
    256 only: the escapes of the code points from U+0100 on, surrogate pairs
    included, are outside this model, and nothing is stated about
    [json.dumps] on them. *)
Definition json_escape_char (c : ascii) : string :=
  let n := N_of_ascii c in
  match n with
  | 34 => String backslash (String dquote EmptyString)
  | 92 => String backslash (String backslash EmptyString)
  | 8 => String backslash "b"
  | 12 => String backslash "f"
  | 10 => String backslash "n"
  | 13 => String backslash "r"
  | 9 => String backslash "t"
  | _ =>
      if ((32 <=? n) && (n <=? 126))%N then String c EmptyString
      else String backslash
             (String "u" (String "0" (String "0"
                (String (hex_digit (n / 16)) (String (hex_digit (n mod 16)) EmptyString)))))
  end%N.

Fixpoint json_escape (s : string) : string :=
  match s with
  | EmptyString => EmptyString
  | String c s' => json_escape_char c +:+ json_escape s'
  end.

Definition json_string (s : string) : string :=
  String dquote (json_escape s) +:+ String dquote EmptyString.

Inductive JVal : Type :=
| JInt (n : Z)
| JStr (s : string).

Definition json_value (v : JVal) : string :=
  match v with
  | JInt n => pretty n
  | JStr s => json_string s
  end.

Definition json_item (kv : string * JVal) : string :=
  json_string kv.1 +:+ ": " +:+ json_value kv.2.

Fixpoint json_join (items : list string) : string :=
  match items with
  | [] => EmptyString
  | [x] => x
  | x :: rest => x +:+ ", " +:+ json_join rest
  end.

(** [json.dumps(d)] for a dict literal [d], given as its items in insertion
    order. *)
Definition json_dumps (d : list (string * JVal)) : string :=
  "{" +:+ json_join (json_item <$> d) +:+ "}".

(** ** [aws_config.load_aws_config] *)

Module AwsConfig.

(** [os.getenv(key)] and [os.getenv(key, default)] over the environment. *)
Definition getenv (env : gmap string string) (key : string) : option string :=
  env !! key.

Definition getenv_default (env : gmap string string) (key dflt : string) : string :=
  default dflt (env !! key).

Definition required : list string :=
  ["AWS_REGION"; "AWS_ACCESS_KEY_ID"; "AWS_SECRET_ACCESS_KEY"].

(** The loop over [required]: the first key whose value is unset or empty
    raises. *)
Fixpoint check_required (env : gmap string string) (keys : list string) : Outcome unit :=
  match keys with
  | [] => Return tt
  | key :: keys' =>
      if truthy (getenv env key) then check_required env keys'
      else Raise (RuntimeError ("Missing required AWS environment variable: " +:+ key))
  end.

(** [debug = str(os.getenv("DEBUG", "0")) == "1"]. *)
Definition debug (env : gmap string string) : bool :=
  String.eqb (getenv_default env "DEBUG" "0") "1".

(** [localstack_host] is [localstack.sdk.aws.AWSClient().configuration.host],
    the host the local development service reports. *)
Definition load_aws_config (localstack_host : string) (env : gmap string string)
  : Outcome (gmap string string) :=
  if debug env then
    Return (<["endpoint_url" := localstack_host]>
            (<["region_name" := "us-east-1"]>
            (<["aws_access_key_id" := "test"]>
            (<["aws_secret_access_key" := "test"]> ∅))))
  else
    match check_required env required with
    | Raise e => Raise e
    | Return _ =>
        Return (<["endpoint_url" := py_str (getenv env "AWS_ENDPOINT_URL")]>
                (<["region_name" := py_str (getenv env "AWS_REGION")]>
                (<["aws_access_key_id" := py_str (getenv env "AWS_ACCESS_KEY_ID")]>
                (<["aws_secret_access_key" := py_str (getenv env "AWS_SECRET_ACCESS_KEY")]> ∅))))
    end.

(** Environments used as examples: production without an endpoint,
    production with an empty access key, and debug with nothing else
    set. *)
Definition prod_env : gmap string string :=
  <["AWS_REGION" := "eu-west-1"]>
  (<["AWS_ACCESS_KEY_ID" := "AKIAEXAMPLE"]>
  (<["AWS_SECRET_ACCESS_KEY" := "secret"]> ∅)).

Definition broken_env : gmap string string :=
  <["AWS_REGION" := "eu-west-1"]>
  (<["AWS_ACCESS_KEY_ID" := EmptyString]>
  (<["AWS_SECRET_ACCESS_KEY" := "secret"]> ∅)).

Definition debug_env : gmap string string := <["DEBUG" := "1"]> ∅.

End AwsConfig.

(** ** [api_gateway.aws_gateway] *)

Module ApiGateway.

(** *** The remote interface *)

(** One entry of the [items] list of a resource listing. *)
Record Item : Type := { item_id : string; item_path : string }.

(** A response dictionary, restricted to the two keys the script reads;
    [None] is an absent key.  Ids and paths are strings, and every item of
    a listing has both its keys, as in the responses of the service. *)
Record Response : Type := {
  resp_id : option string;
  resp_items : option (list Item)
}.

(** The client methods the script calls, with their keyword arguments. *)
Inductive Request : Type :=
| CreateRestApi (name description : string) (endpoint_types : list string)
| GetResources (restApiId : string)
| CreateResource (restApiId parentId pathPart : string)
| PutMethod (restApiId resourceId httpMethod authorizationType : string)
| PutMethodResponse (restApiId resourceId httpMethod statusCode : string)
    (responseModels : gmap string string)
| PutIntegration (restApiId resourceId httpMethod type : string)
    (requestTemplates : gmap string string)
| PutIntegrationResponse (restApiId resourceId httpMethod statusCode : string)
    (responseTemplates : gmap string string)
| CreateDeployment (restApiId stageName description : string).

Inductive Reply : Type :=
| Ok (response : Response)
| Fail (e : Exn).

(** What a run does, in order. *)
Inductive Event : Type :=
| ECall (req : Request) (reply : Reply)
| EPrint (line : string)
| ESleep (seconds : Z).

Section Script.

Context {World : Type}.

(** [apigateway_client]: the module-level boto3 client. *)
Variable client : World → Request → Reply * World.

(** *** The monad of the script *)

Definition Py (A : Type) : Type := World → Outcome A * World * list Event.

Definition ret {A} (a : A) : Py A := λ w, (Return a, w, []).

Definition bind {A B} (m : Py A) (k : A → Py B) : Py B := λ w,
  match m w with
  | (Return a, w1, t1) =>
      match k a w1 with
      | (o, w2, t2) => (o, w2, t1 ++ t2)
      end
  | (Raise e, w1, t1) => (Raise e, w1, t1)
  end.

Definition raise {A} (e : Exn) : Py A := λ w, (Raise e, w, []).

(** [try: body / except ClientError as e: handler], the handler
    receiving [str(e)]. *)
Definition try_except_ClientError {A} (body : Py A) (handler : string → Py A) : Py A := λ w,
  match body w with
  | (Raise (ClientError msg), w1, t1) =>
      match handler msg w1 with
      | (o, w2, t2) => (o, w2, t1 ++ t2)
      end
  | r => r
  end.

Definition call (req : Request) : Py Response := λ w,
  match client w req with
  | (Ok response, w1) => (Return response, w1, [ECall req (Ok response)])
  | (Fail e, w1) => (Raise e, w1, [ECall req (Fail e)])
  end.

Definition print (line : string) : Py unit := λ w, (Return tt, w, [EPrint line]).

Definition sleep (seconds : Z) : Py unit := λ w, (Return tt, w, [ESleep seconds]).

(** [d[key]] on a response: [KeyError] when the key is absent. *)
Definition getitem {A} (key : string) (field : option A) : Py A :=
  match field with
  | Some v => ret v
  | None => raise (KeyError key)
  end.

(** [next(gen)] on a generator given by the values it yields:
    [StopIteration] when it yields none. *)
Definition next {A} (gen : list A) : Py A :=
  match gen with
  | x :: _ => ret x
  | [] => raise StopIteration
  end.

Fixpoint for_each {A} (xs : list A) (body : A → Py unit) : Py unit :=
  match xs with
  | [] => ret tt
  | x :: xs' => bind (body x) (λ _, for_each xs' body)
  end.

Notation "x <- m ;; k" := (bind m (λ x, k))
  (at level 100, m at next level, right associativity).
Notation "m ;;; k" := (bind m (λ _, k))
  (at level 100, right associativity).

(** *** The functions of the module *)

Definition create_rest_api (api_name : string) : Py (option string) :=
  try_except_ClientError
    (response <- call (CreateRestApi api_name
                         "A test API created with LocalStack and Boto3" ["REGIONAL"]);;
     api_id <- getitem "id" (resp_id response);;
     print ("Created REST API: " +:+ api_name +:+ " (ID: " +:+ api_id +:+ ")");;;
     ret (Some api_id))
    (λ e, print ("Error creating API: " +:+ e);;; ret None).

Definition get_root_resource_id (api_id : string) : Py string :=
  response <- call (GetResources api_id);;
  items <- getitem "items" (resp_items response);;
  root_resource_id <-
    next (item_id <$> filter (λ item, item_path item = "/") items);;
  print ("Root resource ID: " +:+ root_resource_id);;;
  ret root_resource_id.

Definition create_child_resource (api_id parent_resource_id path_part : string)
  : Py (option string) :=
  try_except_ClientError
    (response <- call (CreateResource api_id parent_resource_id path_part);;
     child_resource_id <- getitem "id" (resp_id response);;
     print ("Created child resource /" +:+ path_part +:+ " (ID: "
            +:+ child_resource_id +:+ ")");;;
     ret (Some child_resource_id))
    (λ e, print ("Error creating child resource: " +:+ e);;; ret None).

Definition create_method (api_id resource_id http_method : string)
  : Py (option Response) :=
  try_except_ClientError
    (response <- call (PutMethod api_id resource_id http_method "NONE");;
     print ("Created " +:+ http_method +:+ " method on resource " +:+ resource_id);;;
     ret (Some response))
    (λ e, print ("Error creating method: " +:+ e);;; ret None).

Definition create_method_response (api_id resource_id http_method : string) : Py unit :=
  try_except_ClientError
    (call (PutMethodResponse api_id resource_id http_method "200"
             {[ "application/json" := "Empty" ]});;;
     print ("Created method response (200) for " +:+ http_method
            +:+ " on resource " +:+ resource_id))
    (λ e, print ("Error creating method response: " +:+ e)).

Definition set_mock_integration (api_id resource_id http_method response_body : string)
  : Py unit :=
  try_except_ClientError
    (let request_template := json_dumps [("statusCode", JInt 200)] in
     call (PutIntegration api_id resource_id http_method "MOCK"
             {[ "application/json" := request_template ]});;;
     print ("Set mock integration for " +:+ http_method
            +:+ " on resource " +:+ resource_id))
    (λ e, print ("Error setting integration: " +:+ e)).

Definition set_mock_integration_response
    (api_id resource_id http_method response_body : string) : Py unit :=
  try_except_ClientError
    (let response_template :=
       json_dumps [("statusCode", JInt 200); ("body", JStr response_body)] in
     call (PutIntegrationResponse api_id resource_id http_method "200"
             {[ "application/json" := response_template ]});;;
     print ("Set mock integration response for " +:+ http_method
            +:+ " on resource " +:+ resource_id))
    (λ e, print ("Error setting integration response: " +:+ e)).

Definition print_resources (api_id : string) : Py unit :=
  response <- call (GetResources api_id);;
  print (newline +:+ "Current Resources:");;;
  items <- getitem "items" (resp_items response);;
  for_each items
    (λ item, print ("  Path: " +:+ item_path item +:+ ", ID: " +:+ item_id item)).

Definition create_deployment (api_id stage_name : string) : Py (option string) :=
  try_except_ClientError
    (sleep 10;;;
     response <- call (CreateDeployment api_id stage_name
                         "Deployment with full mock setup");;
     deployment_id <- getitem "id" (resp_id response);;
     print ("Deployed API to stage '" +:+ stage_name +:+ "'. Deployment ID: "
            +:+ deployment_id);;;
     ret (Some deployment_id))
    (λ e, print ("Error deploying API: " +:+ e);;; ret None).

Definition get_invoke_url (api_id : string) : Py string :=
  let base_url :=
    "http://" +:+ api_id +:+ ".execute-api.localhost.localstack.cloud:4566/prod" in
  print (newline +:+ "Base Invoke URL: " +:+ base_url);;;
  print "Test root: curl -X GET '{base_url}/'";;;
  print "Test /test: curl -X GET '{base_url}/test'";;;
  print "Alternative (if DNS issues): http://localhost:4566/_aws/execute-api/{api_id}/prod/";;;
  ret base_url.

(** [if not api_id] and [if test_resource_id] are matches on the value:
    [None] and the empty string are false (see [truthy]), and a true value
    is a non-empty string.  [exit(1)] raises [SystemExit(1)]. *)
Definition setup_rest_api_gateway (api_name http_method : string) : Py unit :=
  api_id <- create_rest_api api_name;;
  match api_id with
  | Some (String _ _ as api_id) =>
      root_resource_id <- get_root_resource_id api_id;;
      create_method api_id root_resource_id http_method;;;
      create_method_response api_id root_resource_id http_method;;;
      set_mock_integration api_id root_resource_id http_method "Hello from root!";;;
      set_mock_integration_response api_id root_resource_id http_method
        "Hello from root!";;;
      test_resource_id <- create_child_resource api_id root_resource_id "test";;
      match test_resource_id with
      | Some (String _ _ as test_resource_id) =>
          create_method api_id test_resource_id http_method;;;
          create_method_response api_id test_resource_id http_method;;;
          set_mock_integration api_id test_resource_id http_method
            "Hello from /test!";;;
          set_mock_integration_response api_id test_resource_id http_method
            "Hello from /test!";;;
          print_resources api_id;;;
          deployment_id <- create_deployment api_id "prod";;
          if truthy deployment_id then get_invoke_url api_id;;; ret tt else ret tt
      | _ => print "Failed to create /test resource; skipping."
      end
  | _ => raise (SystemExit 1)
  end.

End Script.

End ApiGateway.

(** ** Observations on runs and concrete gateways *)

Module Run.
Import ApiGateway.

Definition outcome {W A} (r : Outcome A * W * list Event) : Outcome A := r.1.1.
Definition trace {W A} (r : Outcome A * W * list Event) : list Event := r.2.

(** The remote calls of a trace, in order. *)
Fixpoint requests (t : list Event) : list Request :=
  match t with
  | [] => []
  | ECall req _ :: t' => req :: requests t'
  | _ :: t' => requests t'
  end.

(** The remote calls of a trace with their replies, in order. *)
Fixpoint calls (t : list Event) : list (Request * Reply) :=
  match t with
  | [] => []
  | ECall req reply :: t' => (req, reply) :: calls t'
  | _ :: t' => calls t'
  end.

(** The trace without its printed lines. *)
Fixpoint timeline (t : list Event) : list Event :=
  match t with
  | [] => []
  | EPrint _ :: t' => timeline t'
  | e :: t' => e :: timeline t'
  end.

(** Seconds slept in a trace: a lower bound on the time it takes. *)
Fixpoint slept (t : list Event) : Z :=
  match t with
  | [] => 0
  | ESleep n :: t' => n + slept t'
  | _ :: t' => slept t'
  end.

(** The operation of a request, and the resource a wiring call targets. *)
Inductive Op : Type :=
| OpCreateRestApi | OpGetResources | OpCreateResource
| OpPutMethod | OpPutMethodResponse | OpPutIntegration | OpPutIntegrationResponse
| OpCreateDeployment.

Global Instance Op_eq_dec : EqDecision Op.
Proof. solve_decision. Defined.

Definition op_of (req : Request) : Op :=
  match req with
  | CreateRestApi _ _ _ => OpCreateRestApi
  | GetResources _ => OpGetResources
  | CreateResource _ _ _ => OpCreateResource
  | PutMethod _ _ _ _ => OpPutMethod
  | PutMethodResponse _ _ _ _ _ => OpPutMethodResponse
  | PutIntegration _ _ _ _ _ => OpPutIntegration
  | PutIntegrationResponse _ _ _ _ _ => OpPutIntegrationResponse
  | CreateDeployment _ _ _ => OpCreateDeployment
  end.

Definition is_wiring (req : Request) : bool :=
  match op_of req with
  | OpPutMethod | OpPutMethodResponse | OpPutIntegration | OpPutIntegrationResponse => true
  | _ => false
  end.

Definition is_deployment (req : Request) : bool :=
  match op_of req with
  | OpCreateDeployment => true
  | _ => false
  end.

Definition resource_of (req : Request) : option string :=
  match req with
  | PutMethod _ r _ _ | PutMethodResponse _ r _ _ _
  | PutIntegration _ r _ _ _ | PutIntegrationResponse _ r _ _ _ => Some r
  | _ => None
  end.

(** The requests of one operation, and how many there are. *)
Definition on_op (k : Op) (reqs : list Request) : list Request :=
  filter (λ req, op_of req = k) reqs.

Definition count_op (k : Op) (reqs : list Request) : nat := length (on_op k reqs).

(** The four wiring requests for one resource, and the requests of a
    complete provisioning. *)
Definition wiring_plan (api_id resource_id http_method response_body : string)
  : list Request :=
  [ PutMethod api_id resource_id http_method "NONE";
    PutMethodResponse api_id resource_id http_method "200"
      {[ "application/json" := "Empty" ]};
    PutIntegration api_id resource_id http_method "MOCK"
      {[ "application/json" := json_dumps [("statusCode", JInt 200)] ]};
    PutIntegrationResponse api_id resource_id http_method "200"
      {[ "application/json" :=
           json_dumps [("statusCode", JInt 200); ("body", JStr response_body)] ]} ].

Definition create_rest_api_request (api_name : string) : Request :=
  CreateRestApi api_name "A test API created with LocalStack and Boto3" ["REGIONAL"].

Definition create_deployment_request (api_id stage_name : string) : Request :=
  CreateDeployment api_id stage_name "Deployment with full mock setup".

Definition provisioning_plan (api_name http_method api_id root_id child_id : string)
  : list Request :=
  [create_rest_api_request api_name; GetResources api_id]
  ++ wiring_plan api_id root_id http_method "Hello from root!"
  ++ [CreateResource api_id root_id "test"]
  ++ wiring_plan api_id child_id http_method "Hello from /test!"
  ++ [GetResources api_id; create_deployment_request api_id "prod"].

(** A reply that a handler of [ClientError] lets the script survive. *)
Definition tolerated (reply : Reply) : bool :=
  match reply with
  | Ok _ | Fail (ClientError _) => true
  | Fail _ => false
  end.


Definition has_root (items : list Item) : bool :=
  bool_decide (Exists (λ item, item_path item = "/") items).

(** A call that succeeded: it was answered with a response that carries
    what the operation returns, a non-empty id for the three creations and
    a listing with the root resource for [get_resources]. *)
Definition succeeded (c : Request * Reply) : bool :=
  match c.2 with
  | Fail _ => false
  | Ok response =>
      match op_of c.1 with
      | OpCreateRestApi | OpCreateResource | OpCreateDeployment => truthy (resp_id response)
      | OpGetResources => from_option has_root false (resp_items response)
      | _ => true
      end
  end.

(** The reply to [create_resource] after which [create_child_resource]
    returns [None] or an empty id. *)
Definition returns_no_id (reply : Reply) : bool :=
  match reply with
  | Fail (ClientError _) => true
  | Ok response =>
      match resp_id response with
      | Some id => negb (truthy (Some id))
      | None => false
      end
  | Fail _ => false
  end.

(** Whether an outcome is a raised [ClientError]. *)
Definition raises_ClientError {A} (o : Outcome A) : bool :=
  match o with
  | Raise (ClientError _) => true
  | _ => false
  end.

(** Monitor for the wait before a deployment.  [since] is the least number
    of seconds slept since a wiring call seen so far, [None] before the
    first wiring call; a deployment call needs it to be at least 10. *)
Fixpoint waits (since : option Z) (t : list Event) : bool :=
  match t with
  | [] => true
  | ECall req _ :: t' =>
      if is_deployment req then from_option (λ s, 10 <=? s) true since && waits since t'
      else if is_wiring req then waits (Some (from_option (Z.min 0) 0 since)) t'
      else waits since t'
  | ESleep n :: t' => waits ((λ s, s + n) <$> since) t'
  | EPrint _ :: t' => waits since t'
  end.

(** Whether an exception is a [ClientError]. *)
Definition is_ClientError (e : Exn) : bool :=
  match e with
  | ClientError _ => true
  | _ => false
  end.

(** A function with a handler for [ClientError] and for nothing else, seen
    from its run: no [ClientError] leaves it; when the reply [reply] to its
    request [req] is a [ClientError], it returns [none] after printing
    [label] followed by the error text; when the reply is an exception of
    another class, that exception leaves it right after the call, nothing
    printed.  [before] is what the run does before the call. *)
Definition handles_ClientError {W A} (run : Outcome A * W * list Event)
    (before : list Event) (req : Request) (reply : Reply) (label : string) (none : A)
  : Prop :=
  raises_ClientError (outcome run) = false
  ∧ (∀ msg, reply = Fail (ClientError msg) →
       outcome run = Return none
       ∧ trace run = before ++ [ECall req reply; EPrint (label +:+ msg)])
  ∧ (∀ e, reply = Fail e → is_ClientError e = false →
       outcome run = Raise e
       ∧ trace run = before ++ [ECall req reply]).

(** [s] between double quotes. *)
Definition quoted (s : string) : string := String dquote s +:+ String dquote EmptyString.

(** A gateway that answers from a script, one reply per call, and raises a
    connection error once the script is used up. *)
Definition scripted (w : list Reply) (req : Request) : Reply * list Reply :=
  match w with
  | reply :: w' => (reply, w')
  | [] => (Fail (OtherError "EndpointConnectionError" "Could not connect to the endpoint URL"), [])
  end.

Definition empty_response : Response := {| resp_id := None; resp_items := None |}.
Definition id_response (id : string) : Response :=
  {| resp_id := Some id; resp_items := None |}.
Definition items_response (items : list Item) : Response :=
  {| resp_id := None; resp_items := Some items |}.

(** A gateway in the style of LocalStack: the world is the resource list
    of the one API; every call succeeds. *)
Definition local (w : list Item) (req : Request) : Reply * list Item :=
  match req with
  | CreateRestApi _ _ _ => (Ok (id_response "a1b2c3"), [{| item_id := "r0"; item_path := "/" |}])
  | GetResources _ => (Ok (items_response w), w)
  | CreateResource _ _ part =>
      (Ok (id_response ("r-" +:+ part)),
       w ++ [{| item_id := "r-" +:+ part; item_path := "/" +:+ part |}])
  | CreateDeployment _ _ _ => (Ok (id_response "d1"), w)
  | _ => (Ok empty_response, w)
  end.

(** Scripts used as examples. *)
Definition root_item : Item := {| item_id := "r0"; item_path := "/" |}.
Definition test_item : Item := {| item_id := "r1"; item_path := "/test" |}.

Definition conflict : Reply :=
  Fail (ClientError "An error occurred (ConflictException) when calling the operation").

(** The child resource cannot be created. *)
Definition failing_child : list Reply :=
  [ Ok (id_response "a1b2c3"); Ok (items_response [root_item]);
    Ok empty_response; Ok empty_response; Ok empty_response; Ok empty_response;
    conflict ].

(** The second wiring call fails without a [ClientError]: botocore's
    [NoCredentialsError] derives from [BotoCoreError]. *)
Definition no_credentials : Exn :=
  OtherError "NoCredentialsError" "Unable to locate credentials".


(** Five of the eight wiring calls are refused. *)
Definition flaky_wiring : list Reply :=
  [ Ok (id_response "a1b2c3"); Ok (items_response [root_item]);
    conflict; Ok empty_response; conflict; conflict;
    Ok (id_response "r1");
    Ok empty_response; conflict; Ok empty_response; conflict;
    Ok (items_response [root_item; test_item]);
    Ok (id_response "d1") ].

End Run.

(** ** How each function runs, by the reply of the gateway *)

Module Shape.
Import ApiGateway Run.

(** Outcome of a call inside [try/except ClientError]: [ok] on a response,
    [none] after the handler, the exception itself otherwise. *)
Definition guarded {A} (ok : Response → Outcome A) (none : A) (reply : Reply) : Outcome A :=
  match reply with
  | Ok response => ok response
  | Fail (ClientError _) => Return none
  | Fail e => Raise e
  end.

(** Outcome of a call outside any handler. *)
Definition unguarded {A} (ok : Response → Outcome A) (reply : Reply) : Outcome A :=
  match reply with
  | Ok response => ok response
  | Fail e => Raise e
  end.

(** Lines printed after a guarded call. *)
Definition report (ok : Response → list string) (err : string) (reply : Reply)
  : list Event :=
  EPrint <$> match reply with
             | Ok response => ok response
             | Fail (ClientError msg) => [err +:+ msg]
             | Fail _ => []
             end.

(** Lines printed after an unguarded call. *)
Definition echo (ok : Response → list string) (reply : Reply) : list Event :=
  EPrint <$> match reply with
             | Ok response => ok response
             | Fail _ => []
             end.

(** Result and printed line of a creation, which reads [response["id"]]. *)
Definition id_result (response : Response) : Outcome (option string) :=
  match resp_id response with
  | Some id => Return (Some id)
  | None => Raise (KeyError "id")
  end.

Definition id_line (line : string → string) (response : Response) : list string :=
  match resp_id response with
  | Some id => [line id]
  | None => []
  end.

(** The ids the generator of [get_root_resource_id] yields, then its result
    and printed line. *)
Definition root_ids (items : list Item) : list string :=
  item_id <$> filter (λ item, item_path item = "/") items.

Definition root_result (response : Response) : Outcome string :=
  match resp_items response with
  | Some items =>
      match root_ids items with
      | id :: _ => Return id
      | [] => Raise StopIteration
      end
  | None => Raise (KeyError "items")
  end.

Definition root_line (response : Response) : list string :=
  match resp_items response with
  | Some items =>
      match root_ids items with
      | id :: _ => ["Root resource ID: " +:+ id]
      | [] => []
      end
  | None => []
  end.

(** Result and printed lines of [print_resources]. *)
Definition listing_result (response : Response) : Outcome unit :=
  match resp_items response with
  | Some _ => Return tt
  | None => Raise (KeyError "items")
  end.

Definition listing_lines (response : Response) : list string :=
  (newline +:+ "Current Resources:")
  :: match resp_items response with
     | Some items =>
         (λ item, "  Path: " +:+ item_path item +:+ ", ID: " +:+ item_id item) <$> items
     | None => []
     end.

End Shape.

(** ** Further observations used by the properties of the code *)

Module More.
Import AwsConfig ApiGateway Run.

(** The keys of a configuration, and the variables [load_aws_config]
    reads. *)
Definition config_keys : gset string :=
  {[ "endpoint_url"; "region_name"; "aws_access_key_id"; "aws_secret_access_key" ]}.

Definition read_variables : list string :=
  ["DEBUG"; "AWS_REGION"; "AWS_ACCESS_KEY_ID"; "AWS_SECRET_ACCESS_KEY"; "AWS_ENDPOINT_URL"].

(** Whether an outcome is a returned value. *)
Definition returns {A} (o : Outcome A) : bool :=
  match o with
  | Return _ => true
  | Raise _ => false
  end.

(** The [restApiId] of a request. *)
Definition api_of (req : Request) : option string :=
  match req with
  | CreateRestApi _ _ _ => None
  | GetResources a | CreateResource a _ _ | PutMethod a _ _ _
  | PutMethodResponse a _ _ _ _ | PutIntegration a _ _ _ _
  | PutIntegrationResponse a _ _ _ _ | CreateDeployment a _ _ => Some a
  end.

(** A call after which the script goes on: a wiring call answered with a
    response or a [ClientError], any other call that succeeded. *)
Definition usable (c : Request * Reply) : bool :=
  if is_wiring c.1 then tolerated c.2 else succeeded c.

(** The lines [get_invoke_url] prints. *)
Definition invoke_lines (api_id : string) : list string :=
  [ newline +:+ "Base Invoke URL: " +:+ "http://" +:+ api_id
      +:+ ".execute-api.localhost.localstack.cloud:4566/prod";
    "Test root: curl -X GET '{base_url}/'";
    "Test /test: curl -X GET '{base_url}/test'";
    "Alternative (if DNS issues): http://localhost:4566/_aws/execute-api/{api_id}/prod/" ].

(** The line [print_resources] prints for an item. *)
Definition resource_line (item : Item) : string :=
  "  Path: " +:+ item_path item +:+ ", ID: " +:+ item_id item.

End More.

Module Facts.
Import ApiGateway Run Shape.

Section Runs.

Context {World : Type}.
Variable client : World → Request → Reply * World.

Ltac unfold_py :=
  unfold try_except_ClientError, bind, call, getitem, next, ret, raise, print, sleep,
    guarded, unguarded, report, echo.

Lemma create_rest_api_run api_name w :
  let req := create_rest_api_request api_name in
  let reply := (client w req).1 in
  create_rest_api client api_name w =
    (guarded id_result None reply, (client w req).2,
     ECall req reply
       :: report (id_line (λ id, "Created REST API: " +:+ api_name +:+ " (ID: " +:+ id +:+ ")"))
            "Error creating API: " reply).
Proof.
  unfold create_rest_api, create_rest_api_request, id_result, id_line; unfold_py; simpl.
  destruct (client w _) as [[response|[]] w1]; simpl; try reflexivity.
  destruct (resp_id response); simpl; reflexivity.
Qed.

Lemma get_root_resource_id_run api_id w :
  let req := GetResources api_id in
  let reply := (client w req).1 in
  get_root_resource_id client api_id w =
    (unguarded root_result reply, (client w req).2,
     ECall req reply :: echo root_line reply).
Proof.
  unfold get_root_resource_id, root_result, root_line, root_ids; unfold_py; simpl.
  destruct (client w _) as [[response|e] w1]; simpl; try reflexivity.
  destruct (resp_items response) as [items|]; simpl; try reflexivity.
  destruct (item_id <$> filter _ items); reflexivity.
Qed.

Lemma create_child_resource_run api_id parent path_part w :
  let req := CreateResource api_id parent path_part in
  let reply := (client w req).1 in
  create_child_resource client api_id parent path_part w =
    (guarded id_result None reply, (client w req).2,
     ECall req reply
       :: report (id_line (λ id, "Created child resource /" +:+ path_part
                                  +:+ " (ID: " +:+ id +:+ ")"))
            "Error creating child resource: " reply).
Proof.
  unfold create_child_resource, id_result, id_line; unfold_py; simpl.
  destruct (client w _) as [[response|[]] w1]; simpl; try reflexivity.
  destruct (resp_id response); simpl; reflexivity.
Qed.

Lemma create_method_run api_id resource_id http_method w :
  let req := PutMethod api_id resource_id http_method "NONE" in
  let reply := (client w req).1 in
  create_method client api_id resource_id http_method w =
    (guarded (λ response, Return (Some response)) None reply, (client w req).2,
     ECall req reply
       :: report (λ _, ["Created " +:+ http_method +:+ " method on resource "
                        +:+ resource_id])
            "Error creating method: " reply).
Proof.
  unfold create_method; unfold_py; simpl.
  destruct (client w _) as [[response|[]] w1]; reflexivity.
Qed.

Lemma create_method_response_run api_id resource_id http_method w :
  let req := PutMethodResponse api_id resource_id http_method "200"
               {[ "application/json" := "Empty" ]} in
  let reply := (client w req).1 in
  create_method_response client api_id resource_id http_method w =
    (guarded (λ _, Return tt) tt reply, (client w req).2,
     ECall req reply
       :: report (λ _, ["Created method response (200) for " +:+ http_method
                        +:+ " on resource " +:+ resource_id])
            "Error creating method response: " reply).
Proof.
  unfold create_method_response; unfold_py; simpl.
  destruct (client w _) as [[response|[]] w1]; reflexivity.
Qed.

Lemma set_mock_integration_run api_id resource_id http_method response_body w :
  let req := PutIntegration api_id resource_id http_method "MOCK"
               {[ "application/json" := json_dumps [("statusCode", JInt 200)] ]} in
  let reply := (client w req).1 in
  set_mock_integration client api_id resource_id http_method response_body w =
    (guarded (λ _, Return tt) tt reply, (client w req).2,
     ECall req reply
       :: report (λ _, ["Set mock integration for " +:+ http_method
                        +:+ " on resource " +:+ resource_id])
            "Error setting integration: " reply).
Proof.
  unfold set_mock_integration; unfold_py; simpl.
  destruct (client w _) as [[response|[]] w1]; reflexivity.
Qed.

Lemma set_mock_integration_response_run api_id resource_id http_method response_body w :
  let req := PutIntegrationResponse api_id resource_id http_method "200"
               {[ "application/json" :=
                    json_dumps [("statusCode", JInt 200); ("body", JStr response_body)] ]} in
  let reply := (client w req).1 in
  set_mock_integration_response client api_id resource_id http_method response_body w =
    (guarded (λ _, Return tt) tt reply, (client w req).2,
     ECall req reply
       :: report (λ _, ["Set mock integration response for " +:+ http_method
                        +:+ " on resource " +:+ resource_id])
            "Error setting integration response: " reply).
Proof.
  unfold set_mock_integration_response; unfold_py; simpl.
  destruct (client w _) as [[response|[]] w1]; reflexivity.
Qed.

Lemma for_each_print {A} (line : A → string) (xs : list A) (w : World) :
  for_each xs (λ x, print (line x)) w = (Return tt, w, EPrint <$> (line <$> xs)).
Proof.
  induction xs as [|x xs IH]; [reflexivity|].
  simpl. unfold bind at 1. unfold print at 1. rewrite IH. reflexivity.
Qed.

Lemma print_resources_run api_id w :
  let req := GetResources api_id in
  let reply := (client w req).1 in
  print_resources client api_id w =
    (unguarded listing_result reply, (client w req).2,
     ECall req reply :: echo listing_lines reply).
Proof.
  unfold print_resources, listing_result, listing_lines.
  unfold bind at 1. unfold call.
  destruct (client w _) as [[response|e] w1]; simpl; [|reflexivity].
  unfold bind at 1. unfold print at 1. unfold echo.
  destruct (resp_items response) as [items|] eqn:Hitems; simpl.
  - unfold bind, getitem, ret. rewrite for_each_print. reflexivity.
  - reflexivity.
Qed.

Lemma create_deployment_run api_id stage_name w :
  let req := create_deployment_request api_id stage_name in
  let reply := (client w req).1 in
  create_deployment client api_id stage_name w =
    (guarded id_result None reply, (client w req).2,
     ESleep 10
       :: ECall req reply
       :: report (id_line (λ id, "Deployed API to stage '" +:+ stage_name
                                  +:+ "'. Deployment ID: " +:+ id))
            "Error deploying API: " reply).
Proof.
  unfold create_deployment, create_deployment_request, id_result, id_line; unfold_py; simpl.
  destruct (client w _) as [[response|[]] w1]; simpl; try reflexivity.
  destruct (resp_id response); reflexivity.
Qed.

Lemma get_invoke_url_run api_id (w : World) :
  get_invoke_url (World := World) api_id w =
    (Return ("http://" +:+ api_id +:+ ".execute-api.localhost.localstack.cloud:4566/prod"),
     w,
     EPrint <$>
       [ newline +:+ "Base Invoke URL: " +:+ "http://" +:+ api_id
           +:+ ".execute-api.localhost.localstack.cloud:4566/prod";
         "Test root: curl -X GET '{base_url}/'";
         "Test /test: curl -X GET '{base_url}/test'";
         "Alternative (if DNS issues): http://localhost:4566/_aws/execute-api/{api_id}/prod/" ]).
Proof. reflexivity. Qed.

Lemma bind_inv {A B} (m : @Py World A) (k : A → @Py World B) w o w' t :
  bind m k w = (o, w', t) →
  (∃ e, m w = (Raise e, w', t) ∧ o = Raise e)
  ∨ (∃ a w1 t1 t2, m w = (Return a, w1, t1) ∧ k a w1 = (o, w', t2) ∧ t = t1 ++ t2).
Proof.
  unfold bind. destruct (m w) as [[[a|e] w1] t1].
  - destruct (k a w1) as [[o2 w2] t2] eqn:Hk. intros [= <- <- <-].
    right. by exists a, w1, t1, t2.
  - intros [= <- <- <-]. left. by exists e.
Qed.

End Runs.
End Facts.

(** ** Observing traces *)

Module Observe.
Import ApiGateway Run Shape.

Lemma calls_app t1 t2 : calls (t1 ++ t2) = calls t1 ++ calls t2.
Proof. induction t1 as [|[] t1 IH]; simpl; by rewrite ?IH. Qed.

Lemma calls_prints lines : calls (EPrint <$> lines) = [].
Proof. induction lines as [|line lines IH]; simpl; by rewrite ?IH. Qed.

Lemma calls_report ok err reply : calls (report ok err reply) = [].
Proof. apply calls_prints. Qed.

Lemma calls_echo ok reply : calls (echo ok reply) = [].
Proof. apply calls_prints. Qed.

Lemma requests_calls t : requests t = (calls t).*1.
Proof. induction t as [|[] t IH]; simpl; by rewrite ?IH. Qed.

Lemma timeline_app t1 t2 : timeline (t1 ++ t2) = timeline t1 ++ timeline t2.
Proof. induction t1 as [|[] t1 IH]; simpl; by rewrite ?IH. Qed.

Lemma timeline_prints lines : timeline (EPrint <$> lines) = [].
Proof. induction lines as [|line lines IH]; simpl; by rewrite ?IH. Qed.

Lemma timeline_report ok err reply : timeline (report ok err reply) = [].
Proof. apply timeline_prints. Qed.

Lemma timeline_echo ok reply : timeline (echo ok reply) = [].
Proof. apply timeline_prints. Qed.

Lemma elem_of_calls req reply t : ECall req reply ∈ t ↔ (req, reply) ∈ calls t.
Proof.
  induction t as [|ev t IH]; simpl.
  - by rewrite !elem_of_nil.
  - destruct ev; rewrite !elem_of_cons, IH; [|split; [intros [[=]|]; done | auto]..].
    split; [intros [[= -> ->]|]; auto | intros [[= -> ->]|]; auto].
Qed.

Lemma waits_timeline since t : waits since (timeline t) = waits since t.
Proof.
  revert since. induction t as [|[req reply|line|n] t IH]; intros since; simpl; [done|..|done|done].
  destruct (is_deployment req); [by rewrite IH|]. by destruct (is_wiring req).
Qed.

Lemma is_wiring_not_deployment req : is_wiring req = true → is_deployment req = false.
Proof. by destruct req. Qed.

Lemma waits_mid mid s s' qd rd post :
  s ≤ s' →
  waits (Some s) (mid ++ ECall qd rd :: post) = true →
  is_deployment qd = true →
  10 ≤ s' + slept mid.
Proof.
  revert s s'. induction mid as [|[req reply|line|n] mid IH]; intros s s' Hs; simpl.
  - intros H Hd. rewrite Hd in H. apply andb_prop in H as [H _]. simpl in H. lia.
  - destruct (is_deployment req).
    + intros [_ H]%andb_prop Hd. by apply (IH s s').
    + destruct (is_wiring req); simpl; intros H Hd.
      * apply (IH (Z.min 0 s) s'); [lia|done..].
      * by apply (IH s s').
  - intros H Hd. by apply (IH s s').
  - intros H Hd.
    assert (10 ≤ s' + n + slept mid) by (apply (IH (s + n) (s' + n)); [lia|done..]).
    lia.
Qed.

Lemma waits_pre pre since qw rw rest :
  waits since (pre ++ ECall qw rw :: rest) = true →
  is_wiring qw = true →
  ∃ s, s ≤ 0 ∧ waits (Some s) rest = true.
Proof.
  revert since. induction pre as [|[req reply|line|n] pre IH]; intros since; simpl.
  - intros H Hw. rewrite (is_wiring_not_deployment _ Hw), Hw in H.
    eexists; split; [|done]. destruct since; simpl; lia.
  - destruct (is_deployment req).
    + intros [_ H]%andb_prop. by eapply IH.
    + destruct (is_wiring req); by eapply IH.
  - apply IH.
  - apply IH.
Qed.

(** What the monitor checks: between a wiring call and a later deployment
    call at least 10 seconds are slept. *)
Lemma waits_sound t pre qw rw mid qd rd post :
  waits None t = true →
  t = pre ++ ECall qw rw :: mid ++ ECall qd rd :: post →
  is_wiring qw = true →
  is_deployment qd = true →
  10 ≤ slept mid.
Proof.
  intros H -> Hw Hd.
  destruct (waits_pre _ _ _ _ _ H Hw) as (s & Hs & Hrest).
  by apply (waits_mid mid s 0 qd rd post).
Qed.


Lemma guarded_raise_not_ClientError {A} (ok : Response → Outcome A) none reply :
  (∀ response, raises_ClientError (ok response) = false) →
  raises_ClientError (guarded ok none reply) = false.
Proof. intros Hok. destruct reply as [|[]]; simpl; auto. Qed.

End Observe.

Module Orchestration.
Import ApiGateway Run Shape Facts Observe.

(** Symbolic execution of a run given as [H : m w = (o, w', t)]: every
    [bind] is split into the case where its first part raises and the case
    where it returns, and the first part is replaced by its run lemma. *)
Ltac run_eq H :=
  first
    [ rewrite create_rest_api_run in H
    | rewrite get_root_resource_id_run in H
    | rewrite create_child_resource_run in H
    | rewrite create_method_run in H
    | rewrite create_method_response_run in H
    | rewrite set_mock_integration_run in H
    | rewrite set_mock_integration_response_run in H
    | rewrite print_resources_run in H
    | rewrite create_deployment_run in H
    | rewrite get_invoke_url_run in H ].

Ltac close_step H :=
  run_eq H;
  match type of H with
  | context [?client ?w ?req] =>
      lazymatch type of (client w req) with
      | (Reply * _)%type =>
          let reply := fresh "reply" in
          let w1 := fresh "w" in
          destruct (client w req) as [reply w1]; cbn [fst snd] in H
      end
  | _ => idtac
  end;
  let Ho := fresh "Ho" in
  injection H as Ho <- <-.

Ltac exec H :=
  lazymatch type of H with
  | bind _ _ _ = _ =>
      let e := fresh "e" in
      let a := fresh "a" in
      let w1 := fresh "w" in
      let t1 := fresh "t" in
      let t2 := fresh "t" in
      let Hm := fresh "Hm" in
      apply bind_inv in H as [(e & Hm & ->) | (a & w1 & t1 & t2 & Hm & H & ->)];
      [ close_step Hm | close_step Hm; cbv beta in H; exec H ]
  | (if ?b then _ else _) _ = _ =>
      destruct b; exec H
  | match ?v with _ => _ end _ = _ =>
      let c := fresh "c" in
      let s := fresh "id" in
      destruct v as [[|c s]|]; exec H
  | raise _ _ = _ => injection H as <- <- <-
  | ret _ _ = _ => injection H as <- <- <-
  | print _ _ = _ => injection H as <- <- <-
  | _ => idtac
  end.

Ltac observe :=
  rewrite ?requests_calls, ?calls_app, ?timeline_app;
  cbn [calls timeline];
  rewrite ?calls_report, ?calls_echo, ?calls_prints,
    ?timeline_report, ?timeline_echo, ?timeline_prints;
  cbn [app fmap list_fmap fst].

Ltac observe_in H :=
  rewrite ?requests_calls, ?calls_app, ?timeline_app in H;
  cbn [calls timeline] in H;
  rewrite ?calls_report, ?calls_echo, ?calls_prints,
    ?timeline_report, ?timeline_echo, ?timeline_prints in H;
  cbn [app fmap list_fmap fst] in H.

Section Orchestrator.

Context {World : Type}.
Variable client : World → Request → Reply * World.

Lemma has_root_ids items :
  has_root items = true → ∃ id rest, root_ids items = id :: rest.
Proof.
  unfold has_root, root_ids. intros H%bool_decide_eq_true.
  induction H as [item items H|item items H IH].
  - rewrite filter_cons_True by done. simpl. eauto.
  - destruct (decide (item_path item = "/")).
    + rewrite filter_cons_True by done. simpl. eauto.
    + rewrite filter_cons_False by done. done.
Qed.

Lemma succeeded_id req reply :
  (op_of req = OpCreateRestApi ∨ op_of req = OpCreateResource
   ∨ op_of req = OpCreateDeployment) →
  succeeded (req, reply) = true →
  ∃ c id, guarded id_result None reply = Return (Some (String c id)).
Proof.
  unfold succeeded, id_result. simpl.
  intros Hop. destruct reply as [response|]; [|done]. simpl.
  destruct Hop as [-> | [-> | ->]];
    (destruct (resp_id response) as [[|c id]|]; [done| |done]); eauto.
Qed.

Lemma succeeded_listing api_id reply :
  succeeded (GetResources api_id, reply) = true →
  (∃ id, unguarded root_result reply = Return id)
  ∧ unguarded listing_result reply = Return tt.
Proof.
  unfold succeeded, root_result, listing_result. simpl.
  destruct reply as [response|]; [|done]. simpl.
  destruct (resp_items response) as [items|]; [|done]. simpl.
  intros (id & rest & ->)%has_root_ids. eauto.
Qed.

Lemma succeeded_total {A} req reply (f : Response → A) none :
  succeeded (req, reply) = true →
  ∃ a, guarded (λ response, Return (f response)) none reply = Return a.
Proof. destruct reply; [simpl; eauto | done]. Qed.

Lemma at_most_one_deployment api_name http_method w :
  (count_op OpCreateDeployment
     (requests (trace (setup_rest_api_gateway client api_name http_method w))) ≤ 1)%nat.
Proof.
  destruct (setup_rest_api_gateway client api_name http_method w) as [[o w'] t] eqn:H.
  unfold trace; simpl. unfold setup_rest_api_gateway in H.
  exec H; observe; vm_compute; lia.
Qed.

(** Uses the success of every call of a leaf: a step that succeeded
    neither raised nor returned nothing. *)
Ltac use_succeeded Hs :=
  observe_in Hs; cbn [forallb] in Hs;
  repeat match type of Hs with
    | _ && _ = true =>
        let H1 := fresh "Hs" in
        apply andb_prop in Hs as [H1 Hs];
        first
          [ match goal with
            | Ho : guarded id_result None ?r = _ |- _ =>
                match type of H1 with succeeded (_, r) = true => idtac end;
                apply succeeded_id in H1 as (? & ? & H1); [|simpl; auto];
                rewrite H1 in Ho; clear H1
            | Ho : unguarded root_result ?r = _ |- _ =>
                match type of H1 with succeeded (_, r) = true => idtac end;
                apply succeeded_listing in H1 as [(? & H1) _];
                rewrite H1 in Ho; clear H1
            | Ho : unguarded listing_result ?r = _ |- _ =>
                match type of H1 with succeeded (_, r) = true => idtac end;
                apply succeeded_listing in H1 as [_ H1];
                rewrite H1 in Ho; clear H1
            | Ho : guarded (λ _, Return _) _ ?r = _ |- _ =>
                match type of H1 with succeeded (_, r) = true => idtac end;
                eapply succeeded_total in H1 as (? & H1);
                rewrite H1 in Ho; clear H1
            end
          | clear H1 ]
    end;
  simplify_eq.

Lemma successful_run_plan api_name http_method w :
  let t := trace (setup_rest_api_gateway client api_name http_method w) in
  forallb succeeded (calls t) = true →
  ∃ api_id root_id child_id,
    requests t = provisioning_plan api_name http_method api_id root_id child_id.
Proof.
  destruct (setup_rest_api_gateway client api_name http_method w) as [[o w'] t] eqn:H.
  unfold trace; simpl. unfold setup_rest_api_gateway in H.
  intros Hs.
  exec H; use_succeeded Hs; observe; by eexists _, _, _.
Qed.

Lemma returns_no_id_result reply :
  returns_no_id reply = true →
  ∃ v, guarded id_result None reply = Return v ∧ truthy v = false.
Proof.
  unfold returns_no_id, id_result.
  destruct reply as [response|[]]; simpl; try done; [|eauto].
  destruct (resp_id response) as [[|c id]|]; simpl; try done. eauto.
Qed.

(** Finds a call among the calls of a leaf. *)
Ltac find_call Hin :=
  observe_in Hin;
  repeat (apply elem_of_cons in Hin as [Hin|Hin]; [try discriminate Hin|]);
  try (apply elem_of_nil in Hin; contradiction).

Lemma child_failure_plan api_name http_method w api_id parent_id path_part reply :
  let t := trace (setup_rest_api_gateway client api_name http_method w) in
  (CreateResource api_id parent_id path_part, reply) ∈ calls t →
  returns_no_id reply = true →
  requests t =
    [create_rest_api_request api_name; GetResources api_id]
    ++ wiring_plan api_id parent_id http_method "Hello from root!"
    ++ [CreateResource api_id parent_id "test"].
Proof.
  destruct (setup_rest_api_gateway client api_name http_method w) as [[o w'] t] eqn:H.
  unfold trace; simpl. unfold setup_rest_api_gateway in H.
  intros Hin (v & Hv & Hfalse)%returns_no_id_result.
  exec H; find_call Hin; simplify_eq; try (rewrite Hv in *; simplify_eq);
    try discriminate Hfalse; observe; reflexivity.
Qed.

Lemma run_waits api_name http_method w :
  waits None (trace (setup_rest_api_gateway client api_name http_method w)) = true.
Proof.
  destruct (setup_rest_api_gateway client api_name http_method w) as [[o w'] t] eqn:H.
  unfold trace; simpl. unfold setup_rest_api_gateway in H.
  rewrite <- waits_timeline.
  exec H; observe; reflexivity.
Qed.



Lemma root_ids_first pre item post :
  Forall (λ it, item_path it ≠ "/") pre →
  item_path item = "/" →
  ∃ rest, root_ids (pre ++ item :: post) = item_id item :: rest.
Proof.
  unfold root_ids. intros Hpre Hitem.
  induction Hpre as [|it pre Hit Hpre IH]; simpl.
  - rewrite filter_cons_True by done. simpl. eauto.
  - rewrite filter_cons_False by done. done.
Qed.

Lemma root_ids_none items :
  Forall (λ it, item_path it ≠ "/") items → root_ids items = [].
Proof.
  unfold root_ids. induction 1 as [|it items Hit Hitems IH]; [done|].
  by rewrite filter_cons_False.
Qed.

Lemma no_root_halts_run api_name http_method w c id w1 t1 response items :
  create_rest_api client api_name w = (Return (Some (String c id)), w1, t1) →
  (client w1 (GetResources (String c id))).1 = Ok response →
  resp_items response = Some items →
  Forall (λ it, item_path it ≠ "/") items →
  outcome (setup_rest_api_gateway client api_name http_method w) = Raise StopIteration.
Proof.
  intros Hrun Hreply Hitems Hnone.
  unfold setup_rest_api_gateway. unfold bind at 1. rewrite Hrun.
  unfold bind at 1. rewrite get_root_resource_id_run, Hreply.
  unfold root_result; simpl. rewrite Hitems, root_ids_none by done. reflexivity.
Qed.

Lemma guarded_handles {A} (ok : Response → Outcome A) none (w1 : World)
    before req reply lines label :
  (∀ response, raises_ClientError (ok response) = false) →
  handles_ClientError
    (guarded ok none reply, w1, before ++ ECall req reply :: report lines label reply)
    before req reply label none.
Proof.
  intros Hok. split; [|split].
  - by apply guarded_raise_not_ClientError.
  - by intros msg ->.
  - intros e -> He. by destruct e.
Qed.

Lemma id_result_not_ClientError response :
  raises_ClientError (id_result response) = false.
Proof. unfold id_result. by destruct (resp_id response). Qed.

Lemma guarded_id_result_Some reply id :
  guarded id_result None reply = Return (Some id) →
  ∃ response, reply = Ok response ∧ resp_id response = Some id.
Proof.
  destruct reply as [response|[]]; simpl; try done.
  unfold id_result. destruct (resp_id response) as [id'|] eqn:Hid; [|done].
  intros [= ->]. eauto.
Qed.

Lemma unguarded_root_result_Return reply id :
  unguarded root_result reply = Return id →
  ∃ response items,
    reply = Ok response ∧ resp_items response = Some items
    ∧ head (root_ids items) = Some id.
Proof.
  destruct reply as [response|]; simpl; [|done].
  unfold root_result. destruct (resp_items response) as [items|] eqn:Hitems; [|done].
  destruct (root_ids items) as [|id' rest] eqn:Hroot; [done|].
  intros [= ->]. exists response, items. by rewrite Hroot.
Qed.

(** The replies behind a complete plan. *)
Lemma plan_replies api_name http_method w api_id root_id child_id :
  let t := trace (setup_rest_api_gateway client api_name http_method w) in
  requests t = provisioning_plan api_name http_method api_id root_id child_id →
  ∃ created items child,
    calls t !! 0%nat = Some (create_rest_api_request api_name, Ok created)
    ∧ resp_id created = Some api_id
    ∧ (∃ listing,
          calls t !! 1%nat = Some (GetResources api_id, Ok listing)
          ∧ resp_items listing = Some items)
    ∧ head (root_ids items) = Some root_id
    ∧ calls t !! 6%nat = Some (CreateResource api_id root_id "test", Ok child)
    ∧ resp_id child = Some child_id.
Proof.
  destruct (setup_rest_api_gateway client api_name http_method w) as [[o w'] t] eqn:H.
  unfold trace; simpl. unfold setup_rest_api_gateway in H.
  intros Hplan.
  exec H.
  all: observe_in Hplan; unfold provisioning_plan, wiring_plan in Hplan;
    cbn [app] in Hplan.
  all: try (apply (f_equal length) in Hplan; discriminate Hplan).
  all:
    pose proof (f_equal (λ l, l !! 1%nat) Hplan) as E1;
    pose proof (f_equal (λ l, l !! 2%nat) Hplan) as E2;
    pose proof (f_equal (λ l, l !! 7%nat) Hplan) as E7;
    clear Hplan; cbn [lookup list_lookup] in E1, E2, E7; simplify_eq.
  all: repeat match goal with
    | Ho : guarded id_result None _ = Return (Some _) |- _ =>
        apply guarded_id_result_Some in Ho as (? & -> & ?)
    | Ho : unguarded root_result _ = Return _ |- _ =>
        apply unguarded_root_result_Return in Ho as (? & ? & -> & ? & ?)
    end.
  all: observe.
  all: eexists _, _, _; split_and!;
    [ reflexivity | eassumption | eexists; split; [reflexivity|eassumption]
    | eassumption | reflexivity | eassumption ].
Qed.


End Orchestrator.
End Orchestration.

(** ** Facts about the configuration *)

Module ConfigFacts.
Import AwsConfig.

Lemma debug_selected env : debug env = true ↔ env !! "DEBUG" = Some "1".
Proof.
  unfold debug, getenv_default. rewrite String.eqb_eq.
  destruct (env !! "DEBUG") as [v|]; simpl; split; intros H; by simplify_eq.
Qed.

Lemma check_required_missing env keys key :
  key ∈ keys →
  truthy (getenv env key) = false →
  ∃ missing,
    missing ∈ keys ∧ truthy (getenv env missing) = false
    ∧ check_required env keys
      = Raise (RuntimeError ("Missing required AWS environment variable: " +:+ missing)).
Proof.
  intros Hin Hkey. induction keys as [|k keys IH]; [by apply elem_of_nil in Hin|].
  simpl. destruct (truthy (getenv env k)) eqn:Hk.
  - apply elem_of_cons in Hin as [->|Hin]; [congruence|].
    destruct (IH Hin) as (missing & ? & ? & ?).
    exists missing. by rewrite elem_of_cons; auto.
  - exists k. rewrite elem_of_cons. auto.
Qed.

Lemma check_required_present env keys :
  Forall (λ key, truthy (getenv env key) = true) keys →
  check_required env keys = Return tt.
Proof. induction 1 as [|k keys Hk _ IH]; simpl; [done|]. by rewrite Hk. Qed.

End ConfigFacts.

(** ** The properties of the specification *)

Module Claims.
Import AwsConfig ApiGateway Run Shape Facts Observe Orchestration ConfigFacts.

Section Gateway.

Context {World : Type}.
Variable client : World → Request → Reply * World.

(** C1.  In every run of [setup_rest_api_gateway] at most one deployment
    call is issued.  In a run in which every gateway call succeeded, the
    calls are exactly those of the provisioning plan, in its order: one
    API creation, the resolution of the root, the four wiring calls on
    the root, one child-resource creation, the four wiring calls on the
    child, the listing and one deployment.  The ids of the plan are those
    the gateway returned: the API is the one of the creation's response,
    the root is the first item of path ["/"] of the first listing, and the
    child is the resource of the [create_resource] response.  So the API
    creation, the child creation and the deployment occur once each, and
    each of the four wiring operations occurs twice, first on the root and
    then on the child. *)
Theorem successful_run_calls api_name http_method w :
  let t := trace (setup_rest_api_gateway client api_name http_method w) in
  (count_op OpCreateDeployment (requests t) ≤ 1)%nat
  ∧ (forallb succeeded (calls t) = true →
     ∃ api_id root_id child_id created items child,
       calls t !! 0%nat = Some (create_rest_api_request api_name, Ok created)
       ∧ resp_id created = Some api_id
       ∧ (∃ listing,
             calls t !! 1%nat = Some (GetResources api_id, Ok listing)
             ∧ resp_items listing = Some items)
       ∧ head (item_id <$> filter (λ item, item_path item = "/") items) = Some root_id
       ∧ calls t !! 6%nat = Some (CreateResource api_id root_id "test", Ok child)
       ∧ resp_id child = Some child_id
       ∧ requests t = provisioning_plan api_name http_method api_id root_id child_id
       ∧ count_op OpCreateRestApi (requests t) = 1%nat
       ∧ count_op OpCreateResource (requests t) = 1%nat
       ∧ count_op OpCreateDeployment (requests t) = 1%nat
       ∧ resource_of <$> on_op OpPutMethod (requests t) = [Some root_id; Some child_id]
       ∧ resource_of <$> on_op OpPutMethodResponse (requests t)
         = [Some root_id; Some child_id]
       ∧ resource_of <$> on_op OpPutIntegration (requests t)
         = [Some root_id; Some child_id]
       ∧ resource_of <$> on_op OpPutIntegrationResponse (requests t)
         = [Some root_id; Some child_id]).
Proof.
  intros t. split; [apply at_most_one_deployment|].
  intros (api_id & root_id & child_id & E)%successful_run_plan.
  destruct (plan_replies client api_name http_method w api_id root_id child_id E)
    as (created & items & child & H0 & Hapi & Hlisting & Hroot & H6 & Hchild).
  exists api_id, root_id, child_id, created, items, child.
  split; [exact H0|]. split; [exact Hapi|]. split; [exact Hlisting|].
  split; [exact Hroot|]. split; [exact H6|]. split; [exact Hchild|].
  subst t. rewrite E. repeat split; reflexivity.
Qed.

(** C2.  In a run whose [create_resource] call was answered so that
    [create_child_resource] returns no id (a [ClientError], or an empty
    id), the calls are the API creation, the resolution of the root, the
    four wiring calls on the root and the child creation, and nothing
    else: every wiring call targets the root, each wiring operation
    occurs once, and no deployment call is issued. *)
Theorem child_failure_skips api_name http_method w api_id parent_id path_part reply :
  let t := trace (setup_rest_api_gateway client api_name http_method w) in
  (CreateResource api_id parent_id path_part, reply) ∈ calls t →
  returns_no_id reply = true →
  requests t =
    [create_rest_api_request api_name; GetResources api_id]
    ++ wiring_plan api_id parent_id http_method "Hello from root!"
    ++ [CreateResource api_id parent_id "test"]
  ∧ Forall (λ req, is_wiring req = true → resource_of req = Some parent_id) (requests t)
  ∧ count_op OpPutMethod (requests t) = 1%nat
  ∧ count_op OpPutMethodResponse (requests t) = 1%nat
  ∧ count_op OpPutIntegration (requests t) = 1%nat
  ∧ count_op OpPutIntegrationResponse (requests t) = 1%nat
  ∧ count_op OpCreateDeployment (requests t) = 0%nat.
Proof.
  intros t Hin Hno. subst t.
  rewrite (child_failure_plan client _ _ _ _ _ _ _ Hin Hno).
  split; [reflexivity|]. split; [|repeat split; reflexivity].
  repeat constructor; simpl; done.
Qed.

(** C3.  When [create_rest_api] returns no API id ([None] or an empty
    id), the run of [setup_rest_api_gateway] ends there with
    [SystemExit(1)]: its events are those of [create_rest_api], whose
    only gateway call is the API creation. *)
Theorem create_rest_api_no_id_halts api_name http_method w v w1 t1 :
  create_rest_api client api_name w = (Return v, w1, t1) →
  truthy v = false →
  setup_rest_api_gateway client api_name http_method w = (Raise (SystemExit 1), w1, t1)
  ∧ requests t1 = [create_rest_api_request api_name].
Proof.
  intros Hrun Hv. split.
  - unfold setup_rest_api_gateway, bind. rewrite Hrun.
    destruct v as [[|c id]|]; try discriminate Hv; unfold raise; by rewrite app_nil_r.
  - rewrite create_rest_api_run in Hrun. injection Hrun as _ _ <-.
    by observe.
Qed.

(** C4.  [create_deployment] sleeps 10 seconds and then issues the
    deployment call.  In every run of [setup_rest_api_gateway], between
    any wiring call and a later deployment call at least 10 seconds are
    slept. *)
Theorem deployment_waits api_name http_method w :
  (∀ api_id stage_name w0, ∃ reply rest,
      trace (create_deployment client api_id stage_name w0)
      = ESleep 10 :: ECall (create_deployment_request api_id stage_name) reply :: rest)
  ∧ (∀ pre qw rw mid qd rd post,
       trace (setup_rest_api_gateway client api_name http_method w)
       = pre ++ ECall qw rw :: mid ++ ECall qd rd :: post →
       is_wiring qw = true →
       is_deployment qd = true →
       10 ≤ slept mid).
Proof.
  split.
  - intros api_id stage_name w0. rewrite create_deployment_run. simpl. eauto.
  - intros pre qw rw mid qd rd post. apply waits_sound, run_waits.
Qed.

(** C6, as amended.  Each of the seven functions with a handler,
    [create_rest_api], [create_child_resource], [create_method],
    [create_method_response], [set_mock_integration],
    [set_mock_integration_response] and [create_deployment], never lets a
    [ClientError] out; when its remote call raises one, it prints the
    line naming the failed operation followed by the error text and
    returns [None].  An exception of another class raised by the call is
    not caught: it leaves the function right after the call, nothing
    printed. *)
Theorem client_errors_reported api_id resource_id http_method response_body api_name
    path_part stage_name w :
  handles_ClientError (create_rest_api client api_name w) []
    (create_rest_api_request api_name)
    (client w (create_rest_api_request api_name)).1 "Error creating API: " None
  ∧ handles_ClientError (create_child_resource client api_id resource_id path_part w) []
      (CreateResource api_id resource_id path_part)
      (client w (CreateResource api_id resource_id path_part)).1
      "Error creating child resource: " None
  ∧ handles_ClientError (create_method client api_id resource_id http_method w) []
      (PutMethod api_id resource_id http_method "NONE")
      (client w (PutMethod api_id resource_id http_method "NONE")).1
      "Error creating method: " None
  ∧ handles_ClientError (create_method_response client api_id resource_id http_method w) []
      (PutMethodResponse api_id resource_id http_method "200"
         {[ "application/json" := "Empty" ]})
      (client w (PutMethodResponse api_id resource_id http_method "200"
                   {[ "application/json" := "Empty" ]})).1
      "Error creating method response: " tt
  ∧ handles_ClientError
      (set_mock_integration client api_id resource_id http_method response_body w) []
      (PutIntegration api_id resource_id http_method "MOCK"
         {[ "application/json" := json_dumps [("statusCode", JInt 200)] ]})
      (client w (PutIntegration api_id resource_id http_method "MOCK"
                   {[ "application/json" := json_dumps [("statusCode", JInt 200)] ]})).1
      "Error setting integration: " tt
  ∧ handles_ClientError
      (set_mock_integration_response client api_id resource_id http_method response_body w)
      []
      (PutIntegrationResponse api_id resource_id http_method "200"
         {[ "application/json" :=
              json_dumps [("statusCode", JInt 200); ("body", JStr response_body)] ]})
      (client w (PutIntegrationResponse api_id resource_id http_method "200"
                   {[ "application/json" :=
                        json_dumps [("statusCode", JInt 200);
                                    ("body", JStr response_body)] ]})).1
      "Error setting integration response: " tt
  ∧ handles_ClientError (create_deployment client api_id stage_name w) [ESleep 10]
      (create_deployment_request api_id stage_name)
      (client w (create_deployment_request api_id stage_name)).1
      "Error deploying API: " None.
Proof.
  rewrite create_rest_api_run, create_child_resource_run, create_method_run,
    create_method_response_run, set_mock_integration_run,
    set_mock_integration_response_run, create_deployment_run.
  repeat match goal with |- handles_ClientError _ _ _ _ _ _ ∧ _ => split end;
    first [ apply (guarded_handles _ _ _ [])
          | apply (guarded_handles _ _ _ [ESleep 10]) ];
    auto using id_result_not_ClientError.
Qed.


(** C8.  [get_root_resource_id] is partial.  On a listing with an item of
    path ["/"] it returns the id of the first such item.  On a listing
    without one it raises [StopIteration]; nothing catches it, and the
    run of [setup_rest_api_gateway] ends with it. *)
Theorem get_root_resource_id_partial api_id w response items :
  (client w (GetResources api_id)).1 = Ok response →
  resp_items response = Some items →
  (∀ pre item post,
      items = pre ++ item :: post →
      Forall (λ it, item_path it ≠ "/") pre →
      item_path item = "/" →
      outcome (get_root_resource_id client api_id w) = Return (item_id item))
  ∧ (Forall (λ it, item_path it ≠ "/") items →
     outcome (get_root_resource_id client api_id w) = Raise StopIteration
     ∧ ∀ api_name http_method w0 t0,
         create_rest_api client api_name w0 = (Return (Some api_id), w, t0) →
         truthy (Some api_id) = true →
         outcome (setup_rest_api_gateway client api_name http_method w0)
         = Raise StopIteration).
Proof.
  intros Hreply Hitems. split.
  - intros pre item post -> Hpre Hitem.
    rewrite get_root_resource_id_run, Hreply.
    unfold outcome, root_result; simpl. rewrite Hitems.
    by destruct (root_ids_first pre item post Hpre Hitem) as [rest ->].
  - intros Hnone. split.
    + rewrite get_root_resource_id_run, Hreply.
      unfold outcome, root_result; simpl. by rewrite Hitems, root_ids_none.
    + intros api_name http_method w0 t0 Hrun Htrue.
      destruct api_id as [|c id]; [discriminate Htrue|].
      by eapply no_root_halts_run.
Qed.

(** C10.  The run of [set_mock_integration] does not depend on its
    [response_body] argument: its request carries the template
    [{"statusCode": 200}] and nothing else.  The body appears only in
    the response template sent by [set_mock_integration_response]. *)
Theorem integration_ignores_body api_id resource_id http_method body1 body2 w :
  set_mock_integration client api_id resource_id http_method body1 w
  = set_mock_integration client api_id resource_id http_method body2 w
  ∧ requests (trace (set_mock_integration client api_id resource_id http_method body1 w))
    = [PutIntegration api_id resource_id http_method "MOCK"
         {[ "application/json" := "{" +:+ quoted "statusCode" +:+ ": 200}" ]}]
  ∧ requests (trace (set_mock_integration_response client api_id resource_id http_method
                       body1 w))
    = [PutIntegrationResponse api_id resource_id http_method "200"
         {[ "application/json" :=
              "{" +:+ quoted "statusCode" +:+ ": 200, " +:+ quoted "body" +:+ ": "
              +:+ json_string body1 +:+ "}" ]}]
  ∧ json_string "Hello from root!" = quoted "Hello from root!"
  ∧ json_string "Hello from /test!" = quoted "Hello from /test!".
Proof.
  split; [reflexivity|].
  rewrite set_mock_integration_run, set_mock_integration_response_run.
  unfold trace; simpl. rewrite !requests_calls. simpl. rewrite !calls_report.
  repeat split.
Qed.

End Gateway.

(** C5.  In production mode ([DEBUG] is not ["1"]), when one of
    [AWS_REGION], [AWS_ACCESS_KEY_ID] and [AWS_SECRET_ACCESS_KEY] is unset
    or empty, [load_aws_config] raises the configuration error, a
    [RuntimeError] naming a missing variable.  In debug mode it returns
    the local endpoint with the placeholder region and credentials,
    whatever else the environment holds. *)
Theorem load_aws_config_modes host env :
  (debug env = false →
   ∀ key, key ∈ required → truthy (getenv env key) = false →
     ∃ missing,
       missing ∈ required ∧ truthy (getenv env missing) = false
       ∧ load_aws_config host env
         = Raise (RuntimeError ("Missing required AWS environment variable: " +:+ missing)))
  ∧ (debug env = true →
     load_aws_config host env
     = Return (<["endpoint_url" := host]>
               (<["region_name" := "us-east-1"]>
               (<["aws_access_key_id" := "test"]>
               (<["aws_secret_access_key" := "test"]> ∅))))).
Proof.
  split.
  - intros Hprod key Hin Hkey.
    destruct (check_required_missing env required key Hin Hkey) as (missing & ? & ? & E).
    exists missing. unfold load_aws_config. rewrite Hprod, E. auto.
  - unfold load_aws_config. by intros ->.
Qed.

(** C9.  In production mode with [AWS_ENDPOINT_URL] unset and the three
    required variables non-empty, [load_aws_config] succeeds, and the
    [endpoint_url] of the configuration is the string ["None"]; the other
    three entries are the values of the variables. *)
Theorem endpoint_unset_is_None host env :
  debug env = false →
  getenv env "AWS_ENDPOINT_URL" = None →
  truthy (getenv env "AWS_REGION") = true →
  truthy (getenv env "AWS_ACCESS_KEY_ID") = true →
  truthy (getenv env "AWS_SECRET_ACCESS_KEY") = true →
  ∃ config,
    load_aws_config host env = Return config
    ∧ config !! "endpoint_url" = Some "None"
    ∧ config !! "region_name" = getenv env "AWS_REGION"
    ∧ config !! "aws_access_key_id" = getenv env "AWS_ACCESS_KEY_ID"
    ∧ config !! "aws_secret_access_key" = getenv env "AWS_SECRET_ACCESS_KEY".
Proof.
  intros Hprod Hurl Hregion Hkey Hsecret.
  unfold load_aws_config. rewrite Hprod.
  rewrite check_required_present by (repeat constructor; done).
  eexists; split; [reflexivity|]. rewrite Hurl.
  destruct (getenv env "AWS_REGION") as [region|]; [|done].
  destruct (getenv env "AWS_ACCESS_KEY_ID") as [key|]; [|done].
  destruct (getenv env "AWS_SECRET_ACCESS_KEY") as [secret|]; [|done].
  simpl. repeat split; by simplify_map_eq.
Qed.

(** *** The theorems at concrete runs *)

Lemma successful_run_calls_witness :
  let t := trace (setup_rest_api_gateway local "demo-api" "GET" []) in
  requests t = provisioning_plan "demo-api" "GET" "a1b2c3" "r0" "r-test"
  ∧ count_op OpCreateRestApi (requests t) = 1%nat
  ∧ count_op OpCreateResource (requests t) = 1%nat
  ∧ count_op OpCreateDeployment (requests t) = 1%nat
  ∧ resource_of <$> on_op OpPutMethod (requests t) = [Some "r0"; Some "r-test"]
  ∧ resource_of <$> on_op OpPutMethodResponse (requests t) = [Some "r0"; Some "r-test"]
  ∧ resource_of <$> on_op OpPutIntegration (requests t) = [Some "r0"; Some "r-test"]
  ∧ resource_of <$> on_op OpPutIntegrationResponse (requests t)
    = [Some "r0"; Some "r-test"].
Proof.
  intros t.
  destruct (proj2 (successful_run_calls local "demo-api" "GET" []) eq_refl)
    as (api_id & root_id & child_id & created & items & child
        & H0 & Hapi & (listing & H1 & Hitems) & Hroot & H6 & Hchild & Hrest).
  vm_compute in H0. injection H0 as <-.
  vm_compute in Hapi. injection Hapi as <-.
  vm_compute in H1. injection H1 as <-.
  vm_compute in Hitems. injection Hitems as <-.
  vm_compute in Hroot. injection Hroot as <-.
  vm_compute in H6. injection H6 as <-.
  vm_compute in Hchild. injection Hchild as <-.
  exact Hrest.
Defined.

Lemma child_failure_skips_witness :
  let t := trace (setup_rest_api_gateway scripted "demo-api" "GET" failing_child) in
  requests t =
    [create_rest_api_request "demo-api"; GetResources "a1b2c3"]
    ++ wiring_plan "a1b2c3" "r0" "GET" "Hello from root!"
    ++ [CreateResource "a1b2c3" "r0" "test"]
  ∧ Forall (λ req, is_wiring req = true → resource_of req = Some "r0") (requests t)
  ∧ count_op OpPutMethod (requests t) = 1%nat
  ∧ count_op OpPutMethodResponse (requests t) = 1%nat
  ∧ count_op OpPutIntegration (requests t) = 1%nat
  ∧ count_op OpPutIntegrationResponse (requests t) = 1%nat
  ∧ count_op OpCreateDeployment (requests t) = 0%nat.
Proof.
  apply (child_failure_skips scripted "demo-api" "GET" failing_child
           "a1b2c3" "r0" "test" conflict).
  - apply list_elem_of_lookup. exists 6%nat. vm_compute. reflexivity.
  - reflexivity.
Defined.

Lemma create_rest_api_no_id_halts_witness :
  setup_rest_api_gateway scripted "demo-api" "GET" [Fail (ClientError "denied")]
  = (Raise (SystemExit 1), [],
     [ECall (create_rest_api_request "demo-api") (Fail (ClientError "denied"));
      EPrint "Error creating API: denied"])
  ∧ requests [ECall (create_rest_api_request "demo-api") (Fail (ClientError "denied"));
              EPrint "Error creating API: denied"]
    = [create_rest_api_request "demo-api"].
Proof.
  apply (create_rest_api_no_id_halts scripted "demo-api" "GET"
           [Fail (ClientError "denied")] None);
    reflexivity.
Defined.

Lemma deployment_waits_witness :
  let t := trace (setup_rest_api_gateway local "demo-api" "GET" []) in
  10 ≤ slept (take 6 (drop 21 t)).
Proof.
  intros t.
  apply (proj2 (deployment_waits local "demo-api" "GET" [])
           (take 20 t)
           (PutIntegrationResponse "a1b2c3" "r-test" "GET" "200"
              {[ "application/json" :=
                   json_dumps [("statusCode", JInt 200);
                               ("body", JStr "Hello from /test!")] ]})
           (Ok empty_response)
           (take 6 (drop 21 t))
           (create_deployment_request "a1b2c3" "prod")
           (Ok (id_response "d1"))
           (drop 28 t)).
  - vm_compute. reflexivity.
  - reflexivity.
  - reflexivity.
Defined.

Lemma client_errors_reported_witness :
  (outcome (create_rest_api scripted "demo-api" [conflict]) = Return None
   ∧ trace (create_rest_api scripted "demo-api" [conflict])
     = [] ++ [ECall (create_rest_api_request "demo-api") conflict;
              EPrint ("Error creating API: "
                      +:+ "An error occurred (ConflictException) when calling the operation")])
  ∧ (outcome (create_deployment scripted "a1b2c3" "prod" [Fail no_credentials])
     = Raise no_credentials
     ∧ trace (create_deployment scripted "a1b2c3" "prod" [Fail no_credentials])
       = [ESleep 10]
         ++ [ECall (create_deployment_request "a1b2c3" "prod") (Fail no_credentials)]).
Proof.
  split.
  - destruct (client_errors_reported scripted "a1b2c3" "r0" "GET" "Hello" "demo-api"
                "test" "prod" [conflict]) as [(_ & H & _) _].
    apply (H "An error occurred (ConflictException) when calling the operation").
    reflexivity.
  - destruct (client_errors_reported scripted "a1b2c3" "r0" "GET" "Hello" "demo-api"
                "test" "prod" [Fail no_credentials])
      as (_ & _ & _ & _ & _ & _ & _ & _ & H).
    apply (H no_credentials); reflexivity.
Defined.


Lemma get_root_resource_id_partial_witness :
  outcome (get_root_resource_id scripted "a1b2c3"
             [Ok (items_response [test_item; root_item; test_item])])
  = Return "r0"
  ∧ outcome (get_root_resource_id scripted "a1b2c3" [Ok (items_response [test_item])])
    = Raise StopIteration
  ∧ outcome (setup_rest_api_gateway scripted "demo-api" "GET"
               [Ok (id_response "a1b2c3"); Ok (items_response [test_item])])
    = Raise StopIteration.
Proof.
  split; [|split].
  - apply (proj1 (get_root_resource_id_partial scripted "a1b2c3"
                    [Ok (items_response [test_item; root_item; test_item])]
                    (items_response [test_item; root_item; test_item])
                    [test_item; root_item; test_item] eq_refl eq_refl)
             [test_item] root_item [test_item]).
    + reflexivity.
    + repeat constructor. vm_compute. discriminate.
    + reflexivity.
  - apply (proj2 (get_root_resource_id_partial scripted "a1b2c3"
                    [Ok (items_response [test_item])]
                    (items_response [test_item]) [test_item] eq_refl eq_refl)).
    repeat constructor. vm_compute. discriminate.
  - eapply (proj2 (get_root_resource_id_partial scripted "a1b2c3"
                     [Ok (items_response [test_item])]
                     (items_response [test_item]) [test_item] eq_refl eq_refl)).
    + repeat constructor. vm_compute. discriminate.
    + reflexivity.
    + reflexivity.
Defined.

Lemma load_aws_config_modes_witness :
  (∃ missing,
      missing ∈ required ∧ truthy (getenv broken_env missing) = false
      ∧ load_aws_config "http://localhost:4566" broken_env
        = Raise (RuntimeError ("Missing required AWS environment variable: " +:+ missing)))
  ∧ load_aws_config "http://localhost:4566" debug_env
    = Return (<["endpoint_url" := "http://localhost:4566"]>
              (<["region_name" := "us-east-1"]>
              (<["aws_access_key_id" := "test"]>
              (<["aws_secret_access_key" := "test"]> ∅)))).
Proof.
  split.
  - apply (proj1 (load_aws_config_modes "http://localhost:4566" broken_env) eq_refl
             "AWS_ACCESS_KEY_ID").
    + apply list_elem_of_lookup. exists 1%nat. reflexivity.
    + reflexivity.
  - apply (proj2 (load_aws_config_modes "http://localhost:4566" debug_env)).
    reflexivity.
Defined.

Lemma endpoint_unset_is_None_witness :
  ∃ config,
    load_aws_config "http://localhost:4566" prod_env = Return config
    ∧ config !! "endpoint_url" = Some "None"
    ∧ config !! "region_name" = getenv prod_env "AWS_REGION"
    ∧ config !! "aws_access_key_id" = getenv prod_env "AWS_ACCESS_KEY_ID"
    ∧ config !! "aws_secret_access_key" = getenv prod_env "AWS_SECRET_ACCESS_KEY".
Proof.
  apply (endpoint_unset_is_None "http://localhost:4566" prod_env); reflexivity.
Defined.


(** C6, as stated, fails.  [get_root_resource_id] has no handler: a
    [ClientError] raised by [get_resources] leaves it as it is.  And
    [create_rest_api] catches [ClientError] only: a connection error
    leaves it as it is. *)
Lemma raw_errors_escape :
  get_root_resource_id scripted "a1b2c3" [conflict]
  = (Raise (ClientError "An error occurred (ConflictException) when calling the operation"),
     [], [ECall (GetResources "a1b2c3") conflict])
  ∧ raises_ClientError (outcome (get_root_resource_id scripted "a1b2c3" [conflict])) = true
  ∧ create_rest_api scripted "demo-api" []
    = (Raise (OtherError "EndpointConnectionError" "Could not connect to the endpoint URL"),
       [],
       [ECall (create_rest_api_request "demo-api")
          (Fail (OtherError "EndpointConnectionError"
                   "Could not connect to the endpoint URL"))]).
Proof. repeat split. Qed.

End Claims.

(** ** Further properties of the configuration *)

Module ConfigProperties.
Import AwsConfig ConfigFacts More.

Lemma check_required_first env pre key post :
  Forall (λ k, truthy (getenv env k) = true) pre →
  truthy (getenv env key) = false →
  check_required env (pre ++ key :: post)
  = Raise (RuntimeError ("Missing required AWS environment variable: " +:+ key)).
Proof.
  intros Hpre Hkey. induction Hpre as [|k pre Hk _ IH]; simpl.
  - by rewrite Hkey.
  - by rewrite Hk.
Qed.

Lemma check_required_returns env keys :
  returns (check_required env keys) = forallb (λ key, truthy (getenv env key)) keys.
Proof.
  induction keys as [|k keys IH]; simpl; [done|].
  by destruct (truthy (getenv env k)).
Qed.

(** X1.  In production mode [load_aws_config] returns exactly when
    [AWS_REGION], [AWS_ACCESS_KEY_ID] and [AWS_SECRET_ACCESS_KEY] are all
    set and non-empty; the configuration it returns then holds these three
    values and, as [endpoint_url], the string of [AWS_ENDPOINT_URL]. *)
Theorem production_succeeds_iff_required_set host env :
  debug env = false →
  returns (load_aws_config host env)
  = forallb (λ key, truthy (getenv env key)) required
  ∧ ∀ config,
      load_aws_config host env = Return config →
      config !! "endpoint_url" = Some (py_str (getenv env "AWS_ENDPOINT_URL"))
      ∧ config !! "region_name" = getenv env "AWS_REGION"
      ∧ config !! "aws_access_key_id" = getenv env "AWS_ACCESS_KEY_ID"
      ∧ config !! "aws_secret_access_key" = getenv env "AWS_SECRET_ACCESS_KEY".
Proof.
  intros Hprod. unfold load_aws_config. rewrite Hprod.
  rewrite <- check_required_returns. split.
  - by destruct (check_required env required).
  - intros config. unfold required. simpl.
    destruct (getenv env "AWS_REGION") as [[|c1 region]|]; try done; simpl.
    destruct (getenv env "AWS_ACCESS_KEY_ID") as [[|c2 key]|]; try done; simpl.
    destruct (getenv env "AWS_SECRET_ACCESS_KEY") as [[|c3 secret]|]; try done; simpl.
    intros [= <-]. repeat split; by simplify_map_eq.
Qed.

(** X2.  In production mode the variable named in the error is the first
    one, in the order [AWS_REGION], [AWS_ACCESS_KEY_ID],
    [AWS_SECRET_ACCESS_KEY], that is unset or empty. *)
Theorem first_missing_variable_is_reported host env pre key post :
  debug env = false →
  required = pre ++ key :: post →
  Forall (λ k, truthy (getenv env k) = true) pre →
  truthy (getenv env key) = false →
  load_aws_config host env
  = Raise (RuntimeError ("Missing required AWS environment variable: " +:+ key)).
Proof.
  intros Hprod Hreq Hpre Hkey. unfold load_aws_config.
  by rewrite Hprod, Hreq, (check_required_first env pre key post Hpre Hkey).
Qed.

(** X3.  Every configuration [load_aws_config] returns, in either mode,
    has exactly the four keys [endpoint_url], [region_name],
    [aws_access_key_id] and [aws_secret_access_key], and its region and
    its two credentials are non-empty. *)
Theorem config_is_complete host env config :
  load_aws_config host env = Return config →
  dom config = config_keys
  ∧ truthy (config !! "region_name") = true
  ∧ truthy (config !! "aws_access_key_id") = true
  ∧ truthy (config !! "aws_secret_access_key") = true.
Proof.
  unfold load_aws_config, config_keys. destruct (debug env).
  - intros [= <-]. split; [|by simplify_map_eq].
    rewrite !dom_insert_L. set_solver.
  - unfold required. simpl.
    destruct (getenv env "AWS_REGION") as [[|c1 region]|]; try done; simpl.
    destruct (getenv env "AWS_ACCESS_KEY_ID") as [[|c2 key]|]; try done; simpl.
    destruct (getenv env "AWS_SECRET_ACCESS_KEY") as [[|c3 secret]|]; try done; simpl.
    intros [= <-]. split; [|by simplify_map_eq].
    rewrite !dom_insert_L. set_solver.
Qed.

(** X4.  [load_aws_config] reads five variables only: two environments
    that agree on [DEBUG], the three required variables and
    [AWS_ENDPOINT_URL] give the same result. *)
Theorem only_five_variables_are_read host env1 env2 :
  (∀ key, key ∈ read_variables → env1 !! key = env2 !! key) →
  load_aws_config host env1 = load_aws_config host env2.
Proof.
  intros Hsame.
  assert (∀ key, key ∈ read_variables → getenv env1 key = getenv env2 key) as Hget
    by exact Hsame.
  unfold load_aws_config, debug, getenv_default, required. simpl.
  rewrite (Hsame "DEBUG"), (Hget "AWS_REGION"), (Hget "AWS_ACCESS_KEY_ID"),
    (Hget "AWS_SECRET_ACCESS_KEY"), (Hget "AWS_ENDPOINT_URL");
    [done|unfold read_variables; set_solver..].
Qed.

(** *** The theorems at concrete environments *)

Lemma production_succeeds_iff_required_set_witness :
  returns (load_aws_config "http://localhost:4566" prod_env)
  = forallb (λ key, truthy (getenv prod_env key)) required
  ∧ ∀ config,
      load_aws_config "http://localhost:4566" prod_env = Return config →
      config !! "endpoint_url" = Some (py_str (getenv prod_env "AWS_ENDPOINT_URL"))
      ∧ config !! "region_name" = getenv prod_env "AWS_REGION"
      ∧ config !! "aws_access_key_id" = getenv prod_env "AWS_ACCESS_KEY_ID"
      ∧ config !! "aws_secret_access_key" = getenv prod_env "AWS_SECRET_ACCESS_KEY".
Proof.
  apply (production_succeeds_iff_required_set "http://localhost:4566" prod_env).
  reflexivity.
Defined.

Lemma first_missing_variable_is_reported_witness :
  load_aws_config "http://localhost:4566" broken_env
  = Raise (RuntimeError ("Missing required AWS environment variable: " +:+ "AWS_ACCESS_KEY_ID")).
Proof.
  apply (first_missing_variable_is_reported "http://localhost:4566" broken_env
           ["AWS_REGION"] "AWS_ACCESS_KEY_ID" ["AWS_SECRET_ACCESS_KEY"]).
  - reflexivity.
  - reflexivity.
  - repeat constructor.
  - reflexivity.
Defined.

Lemma config_is_complete_witness :
  ∃ config,
    load_aws_config "http://localhost:4566" prod_env = Return config
    ∧ dom config = config_keys
    ∧ truthy (config !! "region_name") = true
    ∧ truthy (config !! "aws_access_key_id") = true
    ∧ truthy (config !! "aws_secret_access_key") = true.
Proof.
  eexists. split; [reflexivity|].
  apply (config_is_complete "http://localhost:4566" prod_env). reflexivity.
Defined.

Lemma only_five_variables_are_read_witness :
  load_aws_config "http://localhost:4566" (<["HOME" := "/root"]> prod_env)
  = load_aws_config "http://localhost:4566" prod_env.
Proof.
  apply (only_five_variables_are_read "http://localhost:4566"
           (<["HOME" := "/root"]> prod_env) prod_env).
  intros key Hkey. unfold read_variables in Hkey.
  repeat (apply elem_of_cons in Hkey as [->|Hkey]; [reflexivity|]).
  by apply elem_of_nil in Hkey.
Defined.
End ConfigProperties.

(** ** Further properties of the gateway script *)

Module RunProperties.
Import ApiGateway Run Shape Facts Observe Orchestration More.

(** As [exec], remembering the value of every tested condition. *)
Ltac exec_eqn H :=
  lazymatch type of H with
  | bind _ _ _ = _ =>
      let e := fresh "e" in
      let a := fresh "a" in
      let w1 := fresh "w" in
      let t1 := fresh "t" in
      let t2 := fresh "t" in
      let Hm := fresh "Hm" in
      apply bind_inv in H as [(e & Hm & ->) | (a & w1 & t1 & t2 & Hm & H & ->)];
      [ close_step Hm | close_step Hm; cbv beta in H; exec_eqn H ]
  | (if ?b then _ else _) _ = _ =>
      let Hb := fresh "Hb" in
      destruct b eqn:Hb; exec_eqn H
  | match ?v with _ => _ end _ = _ =>
      let c := fresh "c" in
      let s := fresh "id" in
      destruct v as [[|c s]|]; exec_eqn H
  | raise _ _ = _ => injection H as <- <- <-
  | ret _ _ = _ => injection H as <- <- <-
  | print _ _ = _ => injection H as <- <- <-
  | _ => idtac
  end.

(** Finds a call or a request among those of a leaf. *)
Ltac locate Hin :=
  observe_in Hin;
  repeat (apply elem_of_cons in Hin as [Hin|Hin]; [try discriminate Hin|]);
  try (apply elem_of_nil in Hin; contradiction).

Section Gateway.

Context {World : Type}.
Variable client : World → Request → Reply * World.

Lemma run_prefix_of_plan api_name http_method w :
  ∃ api_id root_id child_id,
    requests (trace (setup_rest_api_gateway client api_name http_method w))
    `prefix_of` provisioning_plan api_name http_method api_id root_id child_id.
Proof.
  destruct (setup_rest_api_gateway client api_name http_method w) as [[o w'] t] eqn:H.
  unfold trace; simpl. unfold setup_rest_api_gateway in H.
  exec H; observe; unshelve (eexists _, _, _; eexists; reflexivity); exact EmptyString.
Qed.

(** X7.  The calls of every run, whatever the gateway answers, are an
    initial part of the provisioning plan: no call is issued out of order,
    repeated or retried, and a run makes at most thirteen calls. *)
Theorem run_follows_plan api_name http_method w :
  let reqs := requests (trace (setup_rest_api_gateway client api_name http_method w)) in
  (∃ api_id root_id child_id,
      reqs `prefix_of` provisioning_plan api_name http_method api_id root_id child_id)
  ∧ (length reqs ≤ 13)%nat.
Proof.
  intros reqs.
  destruct (run_prefix_of_plan api_name http_method w)
    as (api_id & root_id & child_id & Hprefix).
  split; [by exists api_id, root_id, child_id|].
  apply prefix_length in Hprefix. exact Hprefix.
Qed.

Lemma tolerated_total {A} reply (f : Response → A) none :
  tolerated reply = true →
  ∃ a, guarded (λ response, Return (f response)) none reply = Return a.
Proof. destruct reply as [|[]]; simpl; eauto; done. Qed.

(** Uses [usable] on every call of a leaf. *)
Ltac use_usable Hs :=
  observe_in Hs; cbn [forallb] in Hs;
  repeat match type of Hs with
    | _ && _ = true =>
        let H1 := fresh "Hs" in
        apply andb_prop in Hs as [H1 Hs];
        cbn [usable is_wiring op_of fst snd create_rest_api_request
               create_deployment_request] in H1;
        first
          [ match goal with
            | Ho : guarded id_result None ?r = _ |- _ =>
                match type of H1 with succeeded (_, r) = true => idtac end;
                apply succeeded_id in H1 as (? & ? & H1); [|simpl; auto];
                rewrite H1 in Ho; clear H1
            | Ho : unguarded root_result ?r = _ |- _ =>
                match type of H1 with succeeded (_, r) = true => idtac end;
                apply succeeded_listing in H1 as [(? & H1) _];
                rewrite H1 in Ho; clear H1
            | Ho : unguarded listing_result ?r = _ |- _ =>
                match type of H1 with succeeded (_, r) = true => idtac end;
                apply succeeded_listing in H1 as [_ H1];
                rewrite H1 in Ho; clear H1
            | Ho : guarded (λ _, Return _) _ ?r = _ |- _ =>
                match type of H1 with tolerated r = true => idtac end;
                eapply tolerated_total in H1 as (? & H1);
                rewrite H1 in Ho; clear H1
            end
          | clear H1 ]
    end;
  simplify_eq.

(** X9.  The deployment is not gated on the wiring: in a run in which the
    API creation, both listings, the child creation and the deployment
    succeeded, and every wiring call was answered with a response or a
    [ClientError], all thirteen calls of the provisioning plan are issued,
    the deployment call included. *)
Theorem wiring_errors_do_not_stop_deployment api_name http_method w :
  let t := trace (setup_rest_api_gateway client api_name http_method w) in
  forallb usable (calls t) = true →
  ∃ api_id root_id child_id,
    requests t = provisioning_plan api_name http_method api_id root_id child_id.
Proof.
  destruct (setup_rest_api_gateway client api_name http_method w) as [[o w'] t] eqn:H.
  unfold trace; simpl. unfold setup_rest_api_gateway in H.
  intros Hs.
  exec H; use_usable Hs; observe; by eexists _, _, _.
Qed.

(** X10.  A deployment call is the last call of a complete plan: whenever
    a run contains a deployment call, its calls are exactly the thirteen of
    the provisioning plan for the API of that call, and the stage is
    ["prod"]. *)
Theorem deployment_ends_complete_plan api_name http_method w api_id stage_name description :
  let t := trace (setup_rest_api_gateway client api_name http_method w) in
  CreateDeployment api_id stage_name description ∈ requests t →
  ∃ root_id child_id,
    requests t = provisioning_plan api_name http_method api_id root_id child_id
    ∧ stage_name = "prod".
Proof.
  destruct (setup_rest_api_gateway client api_name http_method w) as [[o w'] t] eqn:H.
  unfold trace; simpl. unfold setup_rest_api_gateway in H.
  intros Hin.
  exec H; locate Hin; unfold create_deployment_request in Hin; simplify_eq; observe;
    eexists _, _; split; reflexivity.
Qed.

Lemma unguarded_raise_ClientError {A} (ok : Response → Outcome A) reply msg :
  (∀ response, raises_ClientError (ok response) = false) →
  unguarded ok reply = Raise (ClientError msg) →
  reply = Fail (ClientError msg).
Proof.
  intros Hok. destruct reply as [response|e]; simpl.
  - intros H. specialize (Hok response). by rewrite H in Hok.
  - by intros [= ->].
Qed.

Lemma root_result_not_ClientError response :
  raises_ClientError (root_result response) = false.
Proof.
  unfold root_result. destruct (resp_items response) as [items|]; [|done].
  by destruct (root_ids items).
Qed.

Lemma listing_result_not_ClientError response :
  raises_ClientError (listing_result response) = false.
Proof. unfold listing_result. by destruct (resp_items response). Qed.

Lemma guarded_not_ClientError {A} (ok : Response → Outcome A) none reply msg :
  (∀ response, raises_ClientError (ok response) = false) →
  guarded ok none reply = Raise (ClientError msg) → False.
Proof.
  intros Hok H.
  pose proof (guarded_raise_not_ClientError ok none reply Hok) as Hno.
  by rewrite H in Hno.
Qed.

(** X8.  A [ClientError] leaves [setup_rest_api_gateway] only from
    [get_resources]: when the run ends with a raised [ClientError], its last
    gateway call is a listing that was answered with that error. *)
Theorem escaping_ClientError_is_listing api_name http_method w msg :
  outcome (setup_rest_api_gateway client api_name http_method w) = Raise (ClientError msg) →
  ∃ api_id pre,
    calls (trace (setup_rest_api_gateway client api_name http_method w))
    = pre ++ [(GetResources api_id, Fail (ClientError msg))].
Proof.
  destruct (setup_rest_api_gateway client api_name http_method w) as [[o w'] t] eqn:H.
  unfold outcome, trace; simpl. unfold setup_rest_api_gateway in H.
  intros Hout.
  exec H.
  all: try discriminate Hout.
  all: injection Hout as ->; try discriminate.
  all: try match goal with
         | Ho : guarded _ _ _ = Raise (ClientError _) |- _ =>
             exfalso; eapply guarded_not_ClientError; [|exact Ho];
             first [ apply id_result_not_ClientError | intros; reflexivity ]
         | Ho : unguarded root_result _ = Raise (ClientError _) |- _ =>
             apply (unguarded_raise_ClientError _ _ _ root_result_not_ClientError) in Ho as ->
         | Ho : unguarded listing_result _ = Raise (ClientError _) |- _ =>
             apply (unguarded_raise_ClientError _ _ _ listing_result_not_ClientError) in Ho as ->
         end.
  all: observe.
  all: first [ by eexists _, [_] | by eexists _, [_; _; _; _; _; _; _; _; _; _; _] ].
Qed.

Lemma last_snoc_app {A} (l1 l2 : list A) (x : A) : last (l1 ++ l2 ++ [x]) = Some x.
Proof. by rewrite app_assoc, last_snoc. Qed.

(** X13.  When the child resource cannot be created, the run does not
    abort: it returns normally, and the last thing it does is print
    ["Failed to create /test resource; skipping."]. *)
Theorem child_failure_is_reported api_name http_method w api_id parent_id path_part reply :
  let r := setup_rest_api_gateway client api_name http_method w in
  (CreateResource api_id parent_id path_part, reply) ∈ calls (trace r) →
  returns_no_id reply = true →
  outcome r = Return tt
  ∧ last (trace r) = Some (EPrint "Failed to create /test resource; skipping.").
Proof.
  destruct (setup_rest_api_gateway client api_name http_method w) as [[o w'] t] eqn:H.
  unfold outcome, trace; simpl. unfold setup_rest_api_gateway in H.
  intros Hin (v & Hv & Hfalse)%returns_no_id_result.
  exec H; locate Hin; simplify_eq; try (rewrite Hv in *; simplify_eq);
    try discriminate Hfalse.
  all: split; [reflexivity|].
  all: rewrite !app_assoc; apply last_snoc.
Qed.

(** X14.  Every call after the API creation is made on the API whose id
    the creation returned. *)
Theorem api_id_is_threaded api_name http_method w response api_id :
  let t := trace (setup_rest_api_gateway client api_name http_method w) in
  head (calls t) = Some (create_rest_api_request api_name, Ok response) →
  resp_id response = Some api_id →
  Forall (λ req, api_of req = Some api_id) (drop 1 (requests t)).
Proof.
  destruct (setup_rest_api_gateway client api_name http_method w) as [[o w'] t] eqn:H.
  unfold trace; simpl. unfold setup_rest_api_gateway in H.
  intros Hhead Hid.
  exec H; observe_in Hhead; cbn [head] in Hhead; simplify_eq;
    cbn [guarded] in *; unfold id_result in *; rewrite Hid in *; simplify_eq;
    observe; cbn [drop]; repeat constructor.
Qed.

(** X16.  Every run starts with the API creation: whatever the gateway
    answers, the first call is [create_rest_api] with the given name, the
    fixed description and the [REGIONAL] endpoint type. *)
Theorem run_starts_with_creation api_name http_method w :
  head (requests (trace (setup_rest_api_gateway client api_name http_method w)))
  = Some (create_rest_api_request api_name).
Proof.
  unfold setup_rest_api_gateway. unfold bind at 1. rewrite create_rest_api_run.
  destruct (guarded id_result None _) as [v|e]; [|reflexivity].
  match goal with
  | |- context [match ?run with (_, _) => _ end] => by destruct run as [[o w'] t]
  end.
Qed.

(** As [use_succeeded] of the orchestration lemmas. *)
Ltac use_all_succeeded Hs :=
  observe_in Hs; cbn [forallb] in Hs;
  repeat match type of Hs with
    | _ && _ = true =>
        let H1 := fresh "Hs" in
        apply andb_prop in Hs as [H1 Hs];
        first
          [ match goal with
            | Ho : guarded id_result None ?r = _ |- _ =>
                match type of H1 with succeeded (_, r) = true => idtac end;
                apply succeeded_id in H1 as (? & ? & H1); [|simpl; auto];
                rewrite H1 in Ho; clear H1
            | Ho : unguarded root_result ?r = _ |- _ =>
                match type of H1 with succeeded (_, r) = true => idtac end;
                apply succeeded_listing in H1 as [(? & H1) _];
                rewrite H1 in Ho; clear H1
            | Ho : unguarded listing_result ?r = _ |- _ =>
                match type of H1 with succeeded (_, r) = true => idtac end;
                apply succeeded_listing in H1 as [_ H1];
                rewrite H1 in Ho; clear H1
            | Ho : guarded (λ _, Return _) _ ?r = _ |- _ =>
                match type of H1 with succeeded (_, r) = true => idtac end;
                eapply succeeded_total in H1 as (? & H1);
                rewrite H1 in Ho; clear H1
            end
          | clear H1 ]
    end;
  simplify_eq.

(** X15.  A run in which every call succeeded returns normally and ends
    with the four lines of [get_invoke_url]; the URL in the first of them
    is built from the id of the API that all calls after the creation were
    made on. *)
Theorem successful_run_prints_url api_name http_method w :
  let r := setup_rest_api_gateway client api_name http_method w in
  forallb succeeded (calls (trace r)) = true →
  ∃ api_id before,
    outcome r = Return tt
    ∧ trace r = before ++ (EPrint <$> invoke_lines api_id)
    ∧ Forall (λ req, api_of req = Some api_id) (drop 1 (requests (trace r))).
Proof.
  destruct (setup_rest_api_gateway client api_name http_method w) as [[o w'] t] eqn:H.
  unfold outcome, trace; simpl. unfold setup_rest_api_gateway in H.
  intros Hs.
  exec_eqn H; use_all_succeeded Hs; try discriminate.
  rewrite app_nil_r, !app_assoc.
  eexists _, _. split; [reflexivity|]. split; [reflexivity|].
  observe. cbn [drop]. repeat constructor.
Qed.

(** X12.  A response without [id] is not handled: [create_rest_api],
    [create_child_resource] and [create_deployment] raise [KeyError] after
    their call, printing nothing, and a run whose API creation is answered
    so ends with that [KeyError] after this one call, not with
    [SystemExit]. *)
Theorem missing_id_raises_KeyError api_name http_method api_id parent_id path_part
    stage_name w response :
  resp_id response = None →
  ((client w (create_rest_api_request api_name)).1 = Ok response →
   create_rest_api client api_name w
   = (Raise (KeyError "id"), (client w (create_rest_api_request api_name)).2,
      [ECall (create_rest_api_request api_name) (Ok response)])
   ∧ setup_rest_api_gateway client api_name http_method w
     = (Raise (KeyError "id"), (client w (create_rest_api_request api_name)).2,
        [ECall (create_rest_api_request api_name) (Ok response)]))
  ∧ ((client w (CreateResource api_id parent_id path_part)).1 = Ok response →
     create_child_resource client api_id parent_id path_part w
     = (Raise (KeyError "id"), (client w (CreateResource api_id parent_id path_part)).2,
        [ECall (CreateResource api_id parent_id path_part) (Ok response)]))
  ∧ ((client w (create_deployment_request api_id stage_name)).1 = Ok response →
     create_deployment client api_id stage_name w
     = (Raise (KeyError "id"), (client w (create_deployment_request api_id stage_name)).2,
        [ESleep 10; ECall (create_deployment_request api_id stage_name) (Ok response)])).
Proof.
  intros Hid. split; [|split].
  - intros Hreply.
    assert (create_rest_api client api_name w
            = (Raise (KeyError "id"), (client w (create_rest_api_request api_name)).2,
               [ECall (create_rest_api_request api_name) (Ok response)])) as Hrun.
    { rewrite create_rest_api_run, Hreply. unfold report, id_line, id_result. simpl.
      by rewrite Hid. }
    split; [exact Hrun|].
    unfold setup_rest_api_gateway, bind. by rewrite Hrun.
  - intros Hreply. rewrite create_child_resource_run, Hreply.
    unfold report, id_line, id_result. simpl. by rewrite Hid.
  - intros Hreply. rewrite create_deployment_run, Hreply.
    unfold report, id_line, id_result. simpl. by rewrite Hid.
Qed.

(** X11.  [print_resources] makes one listing call.  On a response with
    items it prints the header and one line per item, in the order of the
    listing, and returns; on a response without [items] it raises
    [KeyError] after the header; an exception of the call, a [ClientError]
    included, leaves it as it is. *)
Theorem print_resources_lists_items api_id w :
  let req := GetResources api_id in
  (∀ response items,
      (client w req).1 = Ok response →
      resp_items response = Some items →
      print_resources client api_id w
      = (Return tt, (client w req).2,
         ECall req (Ok response)
           :: EPrint (newline +:+ "Current Resources:")
           :: (EPrint <$> (resource_line <$> items))))
  ∧ (∀ response,
        (client w req).1 = Ok response →
        resp_items response = None →
        print_resources client api_id w
        = (Raise (KeyError "items"), (client w req).2,
           [ECall req (Ok response); EPrint (newline +:+ "Current Resources:")]))
  ∧ (∀ e,
        (client w req).1 = Fail e →
        print_resources client api_id w = (Raise e, (client w req).2, [ECall req (Fail e)])).
Proof.
  intros req. subst req. rewrite print_resources_run. repeat split.
  - intros response items -> Hitems. unfold echo, listing_result, listing_lines. simpl.
    by rewrite Hitems.
  - intros response -> Hitems. unfold echo, listing_result, listing_lines. simpl.
    by rewrite Hitems.
  - by intros e ->.
Qed.

End Gateway.

(** *** The theorems at concrete runs *)

Lemma escaping_ClientError_is_listing_witness :
  ∃ api_id pre,
    calls (trace (setup_rest_api_gateway scripted "demo-api" "GET"
                    [Ok (id_response "a1b2c3"); conflict]))
    = pre ++ [(GetResources api_id,
               Fail (ClientError
                       "An error occurred (ConflictException) when calling the operation"))].
Proof.
  apply (escaping_ClientError_is_listing scripted "demo-api" "GET"
           [Ok (id_response "a1b2c3"); conflict]).
  reflexivity.
Defined.

Lemma wiring_errors_do_not_stop_deployment_witness :
  ∃ api_id root_id child_id,
    requests (trace (setup_rest_api_gateway scripted "demo-api" "GET" flaky_wiring))
    = provisioning_plan "demo-api" "GET" api_id root_id child_id.
Proof.
  apply (wiring_errors_do_not_stop_deployment scripted "demo-api" "GET" flaky_wiring).
  vm_compute. reflexivity.
Defined.

Lemma deployment_ends_complete_plan_witness :
  ∃ root_id child_id,
    requests (trace (setup_rest_api_gateway local "demo-api" "GET" []))
    = provisioning_plan "demo-api" "GET" "a1b2c3" root_id child_id
    ∧ "prod" = "prod".
Proof.
  apply (deployment_ends_complete_plan local "demo-api" "GET" [] "a1b2c3" "prod"
           "Deployment with full mock setup").
  apply list_elem_of_lookup. exists 12%nat. vm_compute. reflexivity.
Defined.

Lemma print_resources_lists_items_witness :
  print_resources scripted "a1b2c3" [Ok (items_response [root_item; test_item])]
  = (Return tt, [],
     [ECall (GetResources "a1b2c3") (Ok (items_response [root_item; test_item]));
      EPrint (newline +:+ "Current Resources:");
      EPrint "  Path: /, ID: r0";
      EPrint "  Path: /test, ID: r1"]).
Proof.
  apply (proj1 (print_resources_lists_items scripted "a1b2c3"
                  [Ok (items_response [root_item; test_item])])
           (items_response [root_item; test_item]) [root_item; test_item]);
    reflexivity.
Defined.

Lemma missing_id_raises_KeyError_witness :
  setup_rest_api_gateway scripted "demo-api" "GET" [Ok empty_response]
  = (Raise (KeyError "id"), [],
     [ECall (create_rest_api_request "demo-api") (Ok empty_response)]).
Proof.
  apply (proj1 (missing_id_raises_KeyError scripted "demo-api" "GET" "a1b2c3" "r0" "test"
                  "prod" [Ok empty_response] empty_response eq_refl)).
  reflexivity.
Defined.

Lemma child_failure_is_reported_witness :
  outcome (setup_rest_api_gateway scripted "demo-api" "GET" failing_child) = Return tt
  ∧ last (trace (setup_rest_api_gateway scripted "demo-api" "GET" failing_child))
    = Some (EPrint "Failed to create /test resource; skipping.").
Proof.
  apply (child_failure_is_reported scripted "demo-api" "GET" failing_child
           "a1b2c3" "r0" "test" conflict).
  - apply list_elem_of_lookup. exists 6%nat. vm_compute. reflexivity.
  - reflexivity.
Defined.

Lemma api_id_is_threaded_witness :
  Forall (λ req, api_of req = Some "a1b2c3")
    (drop 1 (requests (trace (setup_rest_api_gateway local "demo-api" "GET" [])))).
Proof.
  apply (api_id_is_threaded local "demo-api" "GET" [] (id_response "a1b2c3") "a1b2c3");
    reflexivity.
Defined.

Lemma successful_run_prints_url_witness :
  ∃ api_id before,
    outcome (setup_rest_api_gateway local "demo-api" "GET" []) = Return tt
    ∧ trace (setup_rest_api_gateway local "demo-api" "GET" [])
      = before ++ (EPrint <$> invoke_lines api_id)
    ∧ Forall (λ req, api_of req = Some api_id)
        (drop 1 (requests (trace (setup_rest_api_gateway local "demo-api" "GET" [])))).
Proof.
  apply (successful_run_prints_url local "demo-api" "GET" []).
  vm_compute. reflexivity.
Defined.

End RunProperties.
